(** * Daily Programming Insight generator

    A shallow embedding of the two script variants of the repository,
    [scripts/generate_tip.py] and [workflows/generate_tip.py]: the
    environment loader, the weekday schedule, the prompt builder, the
    completion client, the GraphQL publisher and the orchestrator.

    Conventions.
    - A Python [str] is a Rocq [string] holding its UTF-8 bytes.  UTF-8 is
      self-synchronising, so one well-formed text occurs inside another at
      the same places whether both are read as code points or as bytes.
    - [os.environ] is a [gmap string string]; a [dict] is a [gmap].
    - Exceptions are values of [exn]; a computation that may raise returns
      a [result].  Printing and the two remote services are recorded in a
      trace of [event]s, threaded through the [IO] monad.
    - The clock and the remote services are inputs (a [world]). *)

From Stdlib Require Import ZArith String Ascii List Lia Bool Floats.
From stdpp Require Import base option gmap strings.
Import ListNotations.

#[local] Open Scope Z_scope.
#[local] Open Scope string_scope.

Set Warnings "-register-all,-inexact-float".

(* ===================================================================== *)
(** ** Python values, exceptions and the two monads                      *)
(* ===================================================================== *)

(** What [json.loads] can produce, and what an attribute typed [Any] may
    hold. *)
Inductive value : Type :=
| VNone
| VBool (b : bool)
| VInt (z : Z)
| VFloat (f : float)
| VStr (s : string)
| VList (l : list value)
| VDict (d : gmap string value).

(** Exceptions.  [RuntimeError] is the only class the scripts raise
    themselves; the others come from the interpreter and the libraries. *)
Inductive exn : Type :=
| RuntimeError (msg : string)
| KeyError (key : value)
| ValueError (msg : string)
| TypeError (msg : string)
| AttributeError (type_name attr : string)
| HTTPError (status_code : Z)
| JSONDecodeError
| RequestException (detail : string)
| GroqError (detail : string).

Inductive result (A : Type) : Type :=
| Ok (a : A)
| Raise (e : exn).
Arguments Ok {A} a.
Arguments Raise {A} e.

Definition bind {A B : Type} (r : result A) (k : A -> result B) : result B :=
  match r with
  | Ok a => k a
  | Raise e => Raise e
  end.

Notation "'let*' x ':=' e 'in' k" := (bind e (fun x => k))
  (at level 10, x pattern, e at level 100, k at level 200).

(** The strings among [e.args]: the message the exception was raised
    with, or the key of a [KeyError]. *)
Definition exn_args (e : exn) : list string :=
  match e with
  | RuntimeError msg | ValueError msg | TypeError msg => [msg]
  | KeyError (VStr k) => [k]
  | KeyError _ => []
  | AttributeError t a => ["'" +:+ t +:+ "' object has no attribute '" +:+ a +:+ "'"]
  | HTTPError _ | JSONDecodeError => []
  | RequestException d | GroqError d => [d]
  end.

(* ===================================================================== *)
(** ** The [str] methods and operators the scripts use                   *)
(* ===================================================================== *)

Module Py.

Definition nl : string := String "010"%char EmptyString.
Definition dquote : string := String "034"%char EmptyString.

Definition of_bytes (l : list nat) : string :=
  fold_right (fun n s => String (ascii_of_nat n) s) EmptyString l.

Fixpoint skip (n : nat) (s : string) : string :=
  match n, s with
  | O, _ => s
  | S _, EmptyString => EmptyString
  | S n', String _ s' => skip n' s'
  end.

Definition is_suffix (t s : string) : bool :=
  String.prefix (String.rev t) (String.rev s).

(** [sub in s] *)
Fixpoint str_in (sub s : string) : bool :=
  match s with
  | EmptyString => String.prefix sub EmptyString
  | String _ s' => String.prefix sub s || str_in sub s'
  end.

(** [s.partition(sep)] when [sep] occurs in [s]: the text before its
    first occurrence and the text after it. *)
Fixpoint cut (sep s : string) : option (string * string) :=
  match s with
  | EmptyString => None
  | String c s' =>
      if String.prefix sep s then Some (EmptyString, skip (String.length sep) s)
      else match cut sep s' with
           | Some (before, after) => Some (String c before, after)
           | None => None
           end
  end.

(** [s.split(sep, 1)] for a non-empty [sep]. *)
Definition split1 (sep s : string) : list string :=
  match cut sep s with
  | Some (before, after) => [before; after]
  | None => [s]
  end.

Definition is_upper (c : ascii) : bool :=
  (65 <=? nat_of_ascii c)%nat && (nat_of_ascii c <=? 90)%nat.

Definition lower_char (c : ascii) : ascii :=
  if is_upper c then ascii_of_nat (nat_of_ascii c + 32) else c.

(** [s.lower()].  Letters outside ASCII are left as they are; none of
    them lowers to an ASCII letter of the word the scripts compare with. *)
Fixpoint lower (s : string) : string :=
  match s with
  | EmptyString => EmptyString
  | String c s' => String (lower_char c) (lower s')
  end.

(** The code points for which [str.isspace] holds, in UTF-8:
    U+0009..000D, U+001C..0020, U+0085, U+00A0, U+1680, U+2000..200A,
    U+2028, U+2029, U+202F, U+205F, U+3000. *)
Definition whitespace : list string :=
  map of_bytes
    ([[9]; [10]; [11]; [12]; [13]; [28]; [29]; [30]; [31]; [32];
      [194; 133]; [194; 160]; [225; 154; 128]]
     ++ map (fun b => [226; 128; b]) (seq 128 11)
     ++ [[226; 128; 168]; [226; 128; 169]; [226; 128; 175];
         [226; 129; 159]; [227; 128; 128]])%list%nat.

(** Bytes taken by the whitespace code point [s] starts / ends with. *)
Definition leading_space (s : string) : nat :=
  match find (fun w => String.prefix w s) whitespace with
  | Some w => String.length w
  | None => O
  end.

Definition trailing_space (s : string) : nat :=
  match find (fun w => is_suffix w s) whitespace with
  | Some w => String.length w
  | None => O
  end.

Fixpoint lstrip_loop (fuel : nat) (s : string) : string :=
  match fuel with
  | O => s
  | S fuel' =>
      match leading_space s with
      | O => s
      | k => lstrip_loop fuel' (skip k s)
      end
  end.

Fixpoint rstrip_loop (fuel : nat) (s : string) : string :=
  match fuel with
  | O => s
  | S fuel' =>
      match trailing_space s with
      | O => s
      | k => rstrip_loop fuel' (String.substring 0 (String.length s - k) s)
      end
  end.

Definition lstrip (s : string) : string := lstrip_loop (String.length s) s.
Definition rstrip (s : string) : string := rstrip_loop (String.length s) s.

(** [s.strip()] *)
Definition strip (s : string) : string := rstrip (lstrip s).

(** [bool(v)] *)
Definition truthy (v : value) : bool :=
  match v with
  | VNone => false
  | VBool b => b
  | VInt z => negb (Z.eqb z 0)
  | VFloat f => negb (PrimFloat.eqb f 0%float)
  | VStr s => negb (String.eqb s EmptyString)
  | VList l => match l with [] => false | _ => true end
  | VDict d => negb (Nat.eqb (size d) 0)
  end.

(** An [Optional[str]] under [if not value]: the string when [bool(value)]
    holds, nothing when [value] is [None] or empty. *)
Definition if_truthy (o : option string) : option string :=
  match o with
  | Some s => if String.eqb s EmptyString then None else Some s
  | None => None
  end.

Definition type_name (v : value) : string :=
  match v with
  | VNone => "NoneType"
  | VBool _ => "bool"
  | VInt _ => "int"
  | VFloat _ => "float"
  | VStr _ => "str"
  | VList _ => "list"
  | VDict _ => "dict"
  end.

(** [key in v] for a [str] key. *)
Definition contains (key : string) (v : value) : result bool :=
  match v with
  | VDict d => Ok (bool_decide (is_Some (d !! key)))
  | VList l =>
      Ok (existsb (fun x => match x with VStr s => String.eqb s key | _ => false end) l)
  | VStr s => Ok (str_in key s)
  | _ => Raise (TypeError ("argument of type '" +:+ type_name v +:+ "' is not iterable"))
  end.

(** [v[key]] for a [str] key. *)
Definition getitem (v : value) (key : string) : result value :=
  match v with
  | VDict d =>
      match d !! key with
      | Some x => Ok x
      | None => Raise (KeyError (VStr key))
      end
  | VList _ => Raise (TypeError "list indices must be integers or slices, not str")
  | VStr _ => Raise (TypeError "string indices must be integers, not 'str'")
  | _ => Raise (TypeError ("'" +:+ type_name v +:+ "' object is not subscriptable"))
  end.

(** [v.get(key)]: only a [dict] has the method. *)
Definition get (v : value) (key : string) : result value :=
  match v with
  | VDict d => Ok (default VNone (d !! key))
  | _ => Raise (AttributeError (type_name v) "get")
  end.

(** [d[key]] on the scripts' own dictionaries. *)
Definition lookup_int (d : gmap Z string) (key : Z) : result string :=
  match d !! key with
  | Some x => Ok x
  | None => Raise (KeyError (VInt key))
  end.

Definition lookup_str (d : gmap string string) (key : string) : result string :=
  match d !! key with
  | Some x => Ok x
  | None => Raise (KeyError (VStr key))
  end.

(** *** [datetime]: the calendar date of an aware UTC [datetime].
    The time-of-day fields are left out: neither [weekday()] nor the
    format [%Y-%m-%d] reads them. *)
Record datetime : Type := { year : Z; month : Z; day : Z }.

Definition is_leap (y : Z) : bool :=
  (y mod 4 =? 0)%Z && (negb (y mod 100 =? 0)%Z || (y mod 400 =? 0)%Z).

Definition days_before_year (y : Z) : Z :=
  let y1 := y - 1 in y1 * 365 + y1 / 4 - y1 / 100 + y1 / 400.

Definition DAYS_BEFORE_MONTH : list Z :=
  [0; 31; 59; 90; 120; 151; 181; 212; 243; 273; 304; 334].

Definition days_before_month (y m : Z) : Z :=
  nth (Z.to_nat (m - 1)) DAYS_BEFORE_MONTH 0
  + (if (2 <? m)%Z && is_leap y then 1 else 0).

Definition toordinal (d : datetime) : Z :=
  days_before_year (year d) + days_before_month (year d) (month d) + day d.

(** [d.weekday()]: Monday is 0 and Sunday is 6. *)
Definition weekday (d : datetime) : Z := (toordinal d + 6) mod 7.

(** The last decimal digit of [n], as a character. *)
Definition digit (n : Z) : ascii := ascii_of_nat (48 + Z.to_nat (n mod 10)).

Definition zero_pad2 (n : Z) : string :=
  String (digit (n / 10)) (String (digit n) EmptyString).

Definition zero_pad4 (n : Z) : string :=
  String (digit (n / 1000)) (String (digit (n / 100)) (zero_pad2 n)).

(** [d.strftime("%Y-%m-%d")], for the years 1000..9999 that print as four
    digits on every platform. *)
Definition strftime_Ymd (d : datetime) : string :=
  zero_pad4 (year d) +:+ "-" +:+ zero_pad2 (month d) +:+ "-" +:+ zero_pad2 (day d).

End Py.

(** ["\n".join(parts)] *)
Fixpoint lines (parts : list string) : string :=
  match parts with
  | [] => EmptyString
  | [l] => l
  | l :: rest => l +:+ Py.nl +:+ lines rest
  end.

(* ===================================================================== *)
(** ** The remote services, the trace and the [IO] monad                 *)
(* ===================================================================== *)

(** The chat-completion client: the request of
    [client.chat.completions.create] and the objects it answers with. *)
Module Groq.

Record request : Type := {
  model : string;
  temperature : float;
  max_tokens : Z;
  messages : list (gmap string string)
}.

(** [content] is [None] here when the message object has no such
    attribute at all. *)
Record Message : Type := { content : option value }.
Record Choice : Type := { message : Message }.
Record ChatCompletion : Type := { choices : list Choice }.

End Groq.

(** [requests.post] and the response object it returns. *)
Module Requests.

Record request : Type := {
  url : string;
  headers : gmap string string;
  json : value;
  timeout : Z
}.

(** [json_body] is what [response.json()] returns or raises. *)
Record response : Type := {
  status_code : Z;
  json_body : result value
}.

(** [response.raise_for_status()] *)
Definition raise_for_status (r : response) : result unit :=
  if (400 <=? status_code r)%Z && (status_code r <? 600)%Z
  then Raise (HTTPError (status_code r))
  else Ok tt.

End Requests.

Inductive event : Type :=
| Printed (line : string)
| Completion (req : Groq.request)
| Posted (req : Requests.request).

Definition trace : Type := list event.

(** The world a run meets: the clock and the two services, whose answers
    may depend on everything that happened before. *)
Record world : Type := {
  utc_now : Py.datetime;
  completions_create : trace -> Groq.request -> result Groq.ChatCompletion;
  requests_post : trace -> Requests.request -> result Requests.response
}.

Definition IO (A : Type) : Type := trace -> trace * result A.

Definition ret {A : Type} (a : A) : IO A := fun tr => (tr, Ok a).

Definition raise {A : Type} (e : exn) : IO A := fun tr => (tr, Raise e).

Definition lift {A : Type} (r : result A) : IO A := fun tr => (tr, r).

Definition io_bind {A B : Type} (m : IO A) (k : A -> IO B) : IO B :=
  fun tr =>
    match m tr with
    | (tr', Ok a) => k a tr'
    | (tr', Raise e) => (tr', Raise e)
    end.

Notation "'let!' x ':=' e 'in' k" := (io_bind e (fun x => k))
  (at level 10, x pattern, e at level 100, k at level 200).

Definition print (line : string) : IO unit :=
  fun tr => (tr ++ [Printed line], Ok tt)%list.

Definition create_completion (w : world) (req : Groq.request) : IO Groq.ChatCompletion :=
  fun tr => (tr ++ [Completion req], completions_create w tr req)%list.

Definition post (w : world) (req : Requests.request) : IO Requests.response :=
  fun tr => (tr ++ [Posted req], requests_post w tr req)%list.

(** Readings of a trace. *)
Definition printed (tr : trace) : list string :=
  omap (fun e => match e with Printed l => Some l | _ => None end) tr.

Definition posts (tr : trace) : list Requests.request :=
  omap (fun e => match e with Posted r => Some r | _ => None end) tr.

(* ===================================================================== *)
(** ** [scripts/generate_tip.py]                                         *)
(* ===================================================================== *)

Module Scripts.

Definition GITHUB_GRAPHQL_ENDPOINT : string := "https://api.github.com/graphql".

(** *** Environment loader *)

Definition require_env (environ : gmap string string) (var_name : string)
  : result string :=
  match Py.if_truthy (environ !! var_name) with
  | None => Raise (RuntimeError ("Missing required environment variable: " +:+ var_name))
  | Some value => Ok value
  end.

Record config : Type := {
  MODEL_NAME : string;
  GITHUB_TOKEN : string;
  GROQ_API_KEY : string;
  REPO_OWNER : string;
  REPO_NAME : string;
  DISCUSSION_CATEGORY_ID : string;
  DRY_RUN : bool
}.

(** The branch on the repository name, lines 33-43: the owner and the
    name the module ends up with. *)
Definition repo_identity (_repo_owner_env : option string) (_repo_name_raw : string)
  : result (string * string) :=
  if Py.str_in "/" _repo_name_raw then
    match Py.split1 "/" _repo_name_raw with
    | [owner_from_slug; repo_from_slug] => Ok (owner_from_slug, repo_from_slug)
    | _ => Raise (ValueError "not enough values to unpack (expected 2, got 1)")
    end
  else
    match Py.if_truthy _repo_owner_env with
    | None =>
        Raise (RuntimeError
          "REPO_OWNER environment variable is required when REPO_NAME does not include the owner")
    | Some owner => Ok (owner, _repo_name_raw)
    end.

(** The module-level statements, in the order they run. *)
Definition load_config (environ : gmap string string) : result config :=
  let model_name := default "llama3-70b-8192" (environ !! "GROQ_MODEL") in
  let* github_token := require_env environ "GITHUB_TOKEN" in
  let* groq_api_key := require_env environ "GROQ_API_KEY" in
  let _repo_owner_env := environ !! "REPO_OWNER" in
  let* _repo_name_raw := require_env environ "REPO_NAME" in
  let* identity := repo_identity _repo_owner_env _repo_name_raw in
  let* discussion_category_id := require_env environ "DISCUSSION_CATEGORY_ID" in
  let dry_run :=
    String.eqb (Py.lower (default "false" (environ !! "DRY_RUN"))) "true" in
  Ok {| MODEL_NAME := model_name;
        GITHUB_TOKEN := github_token;
        GROQ_API_KEY := groq_api_key;
        REPO_OWNER := fst identity;
        REPO_NAME := snd identity;
        DISCUSSION_CATEGORY_ID := discussion_category_id;
        DRY_RUN := dry_run |}.

(** *** Schedule resolver *)

Definition LANGUAGE_SCHEDULE : gmap Z string :=
  {[ 0 := "Wildcard";
     1 := "Python";
     2 := "Java";
     3 := "JavaScript";
     4 := "Go";
     5 := "Wildcard";
     6 := "Wildcard" ]}.

Definition DAY_NAMES : gmap Z string :=
  {[ 0 := "Sunday";
     1 := "Monday";
     2 := "Tuesday";
     3 := "Wednesday";
     4 := "Thursday";
     5 := "Friday";
     6 := "Saturday" ]}.

(** The index [get_current_day_info] computes from [now.weekday()]. *)
Definition sunday_first (now : Py.datetime) : Z :=
  if negb (Py.weekday now =? 6)%Z then Py.weekday now + 1 else 0.

Definition get_current_day_info (w : world) : result (gmap string string) :=
  let now := utc_now w in
  let weekday := sunday_first now in
  let* day_name := Py.lookup_int DAY_NAMES weekday in
  let* language := Py.lookup_int LANGUAGE_SCHEDULE weekday in
  Ok {[ "day_name" := day_name;
        "language" := language;
        "date" := Py.strftime_Ymd now ]}.

(** *** Prompt builder *)

Definition SYSTEM_PROMPT : string :=
  "You are an expert AI instructor who writes daily programming insight posts for "
  +:+ "beginners. Always reply with valid Markdown that is professional, concise, and "
  +:+ "aligned with the provided outline. Never include extra sections or commentary.".

(** The f-string of [build_user_prompt], one list entry per line. *)
Definition user_prompt (date day_name language : string) : string :=
  lines
    [ "Create today's GitHub Discussion post for the Daily Programming Insight series.";
      "";
      "Date: " +:+ date;
      "Day: " +:+ day_name;
      "Scheduled Language: " +:+ language;
      "";
      "Follow these exact rules:";
      "";
      "Language schedule";
      "- Monday → Python";
      "- Tuesday → Java";
      "- Wednesday → JavaScript";
      "- Thursday → Go";
      "- Friday, Saturday, Sunday → Wildcard (you may pick any language, including niche or emerging ones)";
      "";
      "Post structure and formatting";
      "1. Introduction — 1-2 sentences introducing yourself as the AI assistant.";
      "2. Topic Preview — Clearly state the specific concept or technique covered today.";
      "3. Fun Fact — 2-4 sentences about the scheduled language including year or origin context.";
      "4. Tips/Notes — Provide exactly 1-2 practical syntax tips, functions, or features for the language.";
      "5. Code Snippet — Provide a runnable example in the scheduled language that demonstrates the concept. Use a fenced code block tagged with the lowercase language name. The snippet must be 30-50 lines, beginner-friendly yet intermediate in difficulty, and follow PEP 8 if the language is Python. Include helpful inline comments.";
      "6. Explanation — Offer a step-by-step breakdown of how the code works, why the concept matters, and practical use cases. Use numbered steps.";
      "7. Sources — If you referenced any external material, cite the links in Markdown list format. If not, output " +:+ Py.dquote +:+ "Sources: None" +:+ Py.dquote +:+ ".";
      "";
      "Additional requirements";
      "- Maintain professional, concise, beginner-friendly tone.";
      "- Never add sections beyond the list above.";
      "- Always produce valid Markdown.";
      "- For wildcard days, still follow the structure and pick a language that differs from the workweek schedule.";
      "- Topic Preview, Fun Fact, and Tips must relate to the scheduled language (" +:+ language +:+ ").";
      "";
      "Return only the finished Markdown post with the seven sections in the order listed." ].

Definition build_user_prompt (day_info : gmap string string) : result string :=
  let* language := Py.lookup_str day_info "language" in
  let* day_name := Py.lookup_str day_info "day_name" in
  let* date := Py.lookup_str day_info "date" in
  Ok (user_prompt date day_name language).

(** *** Completion client *)

(** The keyword arguments of [client.chat.completions.create]. *)
Definition completion_request (cfg : config) (prompt : string) : Groq.request :=
  {| Groq.model := MODEL_NAME cfg;
     Groq.temperature := 0.4%float;
     Groq.max_tokens := 2048;
     Groq.messages :=
       [ {[ "role" := "system"; "content" := SYSTEM_PROMPT ]};
         {[ "role" := "user"; "content" := prompt ]} ] |}.

Definition generate_programming_tip (w : world) (cfg : config)
    (day_info : gmap string string) : IO string :=
  let! prompt := lift (build_user_prompt day_info) in
  let! response := create_completion w (completion_request cfg prompt) in
  match Groq.choices response with
  | [] => raise (RuntimeError "Groq completion response did not contain choices")
  | first :: _ =>
      let content := default VNone (Groq.content (Groq.message first)) in
      match content with
      | VStr text =>
          if negb (Py.truthy content) then
            raise (RuntimeError "Received empty or non-string content from Groq completion")
          else
            let stripped := Py.strip text in
            if negb (Py.truthy (VStr stripped)) then
              raise (RuntimeError
                "Groq completion content was blank after stripping whitespace")
            else ret stripped
      | _ => raise (RuntimeError "Received empty or non-string content from Groq completion")
      end
  end.

(** *** Publisher and orchestrator *)

Section Remote.

(** [str(v)] for a value that is not a [str]: how the interpreter renders
    a decoded JSON value inside an f-string. *)
Variable py_str : value -> string.

Definition fstring (v : value) : string :=
  match v with
  | VStr s => s
  | _ => py_str v
  end.

(** The arguments of [requests.post] in [github_graphql]. *)
Definition graphql_request (headers : gmap string string) (query : string)
    (variables : value) : Requests.request :=
  {| Requests.url := GITHUB_GRAPHQL_ENDPOINT;
     Requests.headers := headers;
     Requests.json := VDict {[ "query" := VStr query; "variables" := variables ]};
     Requests.timeout := 30 |}.

Definition github_graphql (w : world) (headers : gmap string string)
    (query : string) (variables : value) : IO value :=
  let! response := post w (graphql_request headers query variables) in
  let! _ := lift (Requests.raise_for_status response) in
  let! payload := lift (Requests.json_body response) in
  let! has_errors := lift (Py.contains "errors" payload) in
  if has_errors then
    let! errors := lift (Py.getitem payload "errors") in
    raise (RuntimeError ("GitHub GraphQL error: " +:+ fstring errors))
  else lift (Py.getitem payload "data").

Definition REPOSITORY_QUERY : string :=
  lines
    [ "";
      "        query($owner: String!, $name: String!) {";
      "          repository(owner: $owner, name: $name) {";
      "            id";
      "          }";
      "        }";
      "        " ].

Definition repository_variables (cfg : config) : value :=
  VDict {[ "owner" := VStr (REPO_OWNER cfg); "name" := VStr (REPO_NAME cfg) ]}.

Definition fetch_repository_id (w : world) (cfg : config)
    (headers : gmap string string) : IO string :=
  let! data :=
    github_graphql w headers REPOSITORY_QUERY (repository_variables cfg) in
  let! repo := lift (Py.get data "repository") in
  match repo with
  | VDict repo_fields =>
      if negb (bool_decide (is_Some (repo_fields !! "id"))) then
        raise (RuntimeError "Unable to resolve repository ID from GitHub API response")
      else
        let! repo_id := lift (Py.get repo "id") in
        match repo_id with
        | VStr s =>
            if negb (Py.truthy repo_id)
            then raise (RuntimeError "GitHub repository ID was missing or invalid")
            else ret s
        | _ => raise (RuntimeError "GitHub repository ID was missing or invalid")
        end
  | _ => raise (RuntimeError "Unable to resolve repository ID from GitHub API response")
  end.

Definition DISCUSSION_MUTATION : string :=
  lines
    [ "";
      "        mutation($input: CreateDiscussionInput!) {";
      "          createDiscussion(input: $input) {";
      "            discussion {";
      "              url";
      "            }";
      "          }";
      "        }";
      "        " ].

Definition discussion_variables (cfg : config) (repo_id title body : string) : value :=
  VDict {[ "input" :=
             VDict {[ "repositoryId" := VStr repo_id;
                      "categoryId" := VStr (DISCUSSION_CATEGORY_ID cfg);
                      "title" := VStr title;
                      "body" := VStr body ]} ]}.

Definition create_discussion (w : world) (cfg : config)
    (headers : gmap string string) (repo_id title body : string) : IO string :=
  let! data :=
    github_graphql w headers DISCUSSION_MUTATION
      (discussion_variables cfg repo_id title body) in
  let! create_discussion := lift (Py.get data "createDiscussion") in
  let! discussion :=
    match create_discussion with
    | VDict _ => lift (Py.get create_discussion "discussion")
    | _ => ret VNone
    end in
  match discussion with
  | VDict discussion_fields =>
      if negb (bool_decide (is_Some (discussion_fields !! "url"))) then
        raise (RuntimeError "GitHub did not return a discussion URL")
      else
        let! url := lift (Py.get discussion "url") in
        match url with
        | VStr s =>
            if negb (Py.truthy url)
            then raise (RuntimeError "GitHub discussion URL was missing or invalid")
            else ret s
        | _ => raise (RuntimeError "GitHub discussion URL was missing or invalid")
        end
  | _ => raise (RuntimeError "GitHub did not return a discussion URL")
  end.

(** The title [main] builds for the discussion. *)
Definition discussion_title (date day_name : string) : string :=
  "Daily Programming Insight — " +:+ date +:+ " (" +:+ day_name +:+ ")".

(** The line [main] prints first. *)
Definition announcement (day_name date : string) : string :=
  "Generating Daily Programming Insight for " +:+ day_name +:+ " (" +:+ date +:+ ")".

Definition auth_headers (cfg : config) : gmap string string :=
  {[ "Authorization" := "Bearer " +:+ GITHUB_TOKEN cfg;
     "Accept" := "application/vnd.github+json";
     "Content-Type" := "application/json" ]}.

Definition main (w : world) (cfg : config) : IO unit :=
  let! day_info := lift (get_current_day_info w) in
  let! day_name := lift (Py.lookup_str day_info "day_name") in
  let! date := lift (Py.lookup_str day_info "date") in
  let! _ := print (announcement day_name date) in
  let! post_body := generate_programming_tip w cfg day_info in
  let! date' := lift (Py.lookup_str day_info "date") in
  let! day_name' := lift (Py.lookup_str day_info "day_name") in
  let title := discussion_title date' day_name' in
  if DRY_RUN cfg then
    let! _ := print "DRY_RUN enabled - not posting to GitHub." in
    let! _ := print "--- Generated Post ---" in
    print post_body
  else
    let headers := auth_headers cfg in
    let! repo_id := fetch_repository_id w cfg headers in
    let! discussion_url := create_discussion w cfg headers repo_id title post_body in
    print ("Discussion created successfully: " +:+ discussion_url).

(** Running the file as a script: the module-level statements, then
    [main()], from an empty trace. *)
Definition run (environ : gmap string string) (w : world) : trace * result unit :=
  match load_config environ with
  | Ok cfg => main w cfg []
  | Raise e => ([], Raise e)
  end.

End Remote.

End Scripts.

(* ===================================================================== *)
(** ** [workflows/generate_tip.py]: the schedule resolver                *)
(* ===================================================================== *)

Module Workflows.

Definition LANGUAGE_SCHEDULE : gmap Z string :=
  {[ 0 := "Wildcard";
     1 := "Python";
     2 := "Java";
     3 := "Go";
     4 := "JavaScript";
     5 := "Wildcard";
     6 := "Wildcard" ]}.

Definition DAY_NAMES : gmap Z string :=
  {[ 0 := "Sunday"; 1 := "Monday"; 2 := "Tuesday"; 3 := "Wednesday";
     4 := "Thursday"; 5 := "Friday"; 6 := "Saturday" ]}.

Definition sunday_first (now : Py.datetime) : Z :=
  if negb (Py.weekday now =? 6)%Z then Py.weekday now + 1 else 0.

Definition get_current_day_info (w : world) : result (gmap string string) :=
  let now := utc_now w in
  let weekday := sunday_first now in
  let* day_name := Py.lookup_int DAY_NAMES weekday in
  let* language := Py.lookup_int LANGUAGE_SCHEDULE weekday in
  Ok {[ "day_name" := day_name;
        "language" := language;
        "date" := Py.strftime_Ymd now ]}.

(** *** Configuration (lines 9-13): [os.environ[key]] for the four keys,
    and the category id written in the file. *)

Record config : Type := {
  GITHUB_TOKEN : string;
  GROQ_API_KEY : string;
  REPO_OWNER : string;
  REPO_NAME : string;
  DISCUSSION_CATEGORY_ID : string
}.

Definition load_config (environ : gmap string string) : result config :=
  let* github_token := Py.lookup_str environ "GITHUB_TOKEN" in
  let* groq_api_key := Py.lookup_str environ "GROQ_API_KEY" in
  let* repo_owner := Py.lookup_str environ "REPO_OWNER" in
  let* repo_name := Py.lookup_str environ "REPO_NAME" in
  Ok {| GITHUB_TOKEN := github_token;
        GROQ_API_KEY := groq_api_key;
        REPO_OWNER := repo_owner;
        REPO_NAME := repo_name;
        DISCUSSION_CATEGORY_ID := "DIC_kwDOExample" |}.

(** *** The prompt [generate_programming_tip] builds (lines 46-85) *)

(** The f-string [pprompt], one list entry per line; it ends with a line
    break.  [alt_snippet] is the value of its conditional expression. *)
Definition prompt_text (day_name language alt_snippet : string) : string :=
  lines
    [ "You are an AI teaching assistant that writes a daily programming tip suited for beginners, formatted in Teams Markdown (basic markdown only, no emoji).";
      "";
      "Language schedule by weekday:";
      "- Monday → Python  ";
      "- Tuesday → Java  ";
      "- Wednesday → Go  ";
      "- Thursday → JavaScript  ";
      "- Friday / Saturday / Sunday → Wildcard (invented or niche). If wildcard, also include a short snippet in Python or JavaScript under " +:+ Py.dquote +:+ "Alt Snippet:" +:+ Py.dquote +:+ ".";
      "";
      "Use these parts, in this order:";
      "";
      "---";
      "";
      "**Daily Programming Insight — " +:+ day_name +:+ "**";
      "";
      "Hello team! I'm your AI learning companion, bringing today's programming knowledge boost.";
      "";
      "**Fun Fact:**  ";
      "Something interesting about a syntax, keyword, function or concept in today's language — include year or origin if relevant.";
      "";
      "**Code Snippet (" +:+ language +:+ "):**  ";
      "```" +:+ Py.lower language;
      "# Runnable code with comments - make it practical and educational";
      "Example Run:";
      "COMMAND => OUTPUT";
      "Core Concept:";
      "Explain the main programming concept demonstrated in the code snippet.";
      "How It Works:";
      "Break down the mechanics step by step.";
      "Why This Matters:";
      "Real use cases and practical applications.";
      "Try This:";
      "A coding exercise to reinforce the concept.";
      "Common Pitfall:";
      "A mistake to avoid and how to prevent it.";
      "Takeaway:";
      "Clear summary statement.";
      alt_snippet;
      "Today is " +:+ day_name +:+ ", so use " +:+ language +:+ ".";
      "" ].

(** The f-string reads [day_info] six times, in this order. *)
Definition pprompt (day_info : gmap string string) : result string :=
  let* day_name := Py.lookup_str day_info "day_name" in
  let* language := Py.lookup_str day_info "language" in
  let* _ := Py.lookup_str day_info "language" in
  let* language_tested := Py.lookup_str day_info "language" in
  let alt_snippet :=
    if String.eqb language_tested "Wildcard"
    then "Alt Snippet (Python/JavaScript): if wildcard"
    else EmptyString in
  let* _ := Py.lookup_str day_info "day_name" in
  let* _ := Py.lookup_str day_info "language" in
  Ok (prompt_text day_name language alt_snippet).

End Workflows.

(* ===================================================================== *)
(** ** Notions the statements below are written with                     *)
(* ===================================================================== *)

Module Text.

(** Number of positions of [hay] at which [needle] starts. *)
Fixpoint occurrences (needle hay : string) : nat :=
  match hay with
  | EmptyString => if String.prefix needle EmptyString then 1 else 0
  | String _ hay' =>
      ((if String.prefix needle hay then 1 else 0) + occurrences needle hay')%nat
  end.

(** The [names] start in [s] at strictly increasing positions, each one
    taken at its first chance. *)
Fixpoint in_order (names : list string) (s : string) : bool :=
  match names, s with
  | [], _ => true
  | _ :: _, EmptyString => false
  | n :: rest, String _ s' =>
      if String.prefix n s then in_order rest s' else in_order names s'
  end.

Definition is_digit (c : ascii) : bool :=
  (48 <=? nat_of_ascii c)%nat && (nat_of_ascii c <=? 57)%nat.

(** Every decimal digit replaced by the digit zero: the shape of a text. *)
Fixpoint shape (s : string) : string :=
  match s with
  | EmptyString => EmptyString
  | String c s' => String (if is_digit c then "0"%char else c) (shape s')
  end.

Fixpoint digit_free (s : string) : bool :=
  match s with
  | EmptyString => true
  | String c s' => negb (is_digit c) && digit_free s'
  end.

(** The value at the end of a path of keys through nested objects. *)
Fixpoint nested (v : value) (path : list string) : option value :=
  match path with
  | [] => Some v
  | key :: rest =>
      match v with
      | VDict d =>
          match d !! key with
          | Some x => nested x rest
          | None => None
          end
      | _ => None
      end
  end.

(** A non-empty string at the end of a path. *)
Definition nested_text (v : value) (path : list string) : option string :=
  match nested v path with
  | Some (VStr s) => if String.eqb s EmptyString then None else Some s
  | _ => None
  end.

(** Some argument of the exception contains [needle]. *)
Definition mentions (needle : string) (e : exn) : bool :=
  existsb (Py.str_in needle) (exn_args e).

(** The name of the day [datetime.weekday()] numbers [p]. *)
Definition monday_first (p : Z) : string :=
  nth (Z.to_nat p)
    ["Monday"; "Tuesday"; "Wednesday"; "Thursday"; "Friday"; "Saturday"; "Sunday"]
    EmptyString.

(** The value is a JSON object. *)
Definition is_object (v : value) : bool :=
  match v with
  | VDict _ => true
  | _ => false
  end.

(** The words by which an error could name the repository id or the
    discussion url. *)
Definition FIELD_WORDS : list string :=
  ["id"; "ID"; "repository"; "url"; "URL"; "discussion"].

(** No argument of the exception holds one of the field words. *)
Definition names_no_field (e : exn) : bool :=
  forallb (fun field => negb (mentions field e)) FIELD_WORDS.

(** The sections the user prompt asks for. *)
Definition SECTION_NAMES : list string :=
  ["Introduction"; "Topic Preview"; "Fun Fact"; "Tips/Notes"; "Code Snippet";
   "Explanation"; "Sources"].

(** The headings under which the user prompt numbers them. *)
Definition SECTION_HEADINGS : list string :=
  ["1. Introduction — "; "2. Topic Preview — "; "3. Fun Fact — ";
   "4. Tips/Notes — "; "5. Code Snippet — "; "6. Explanation — ";
   "7. Sources — "].

(** How often the user prompt holds the scheduled language: on the
    [Scheduled Language:] line, in the schedule list and in the closing
    requirement; Python is named once more by the style rule of the code
    snippet, and Java once more inside JavaScript. *)
Definition language_count (language : string) : nat :=
  if String.eqb language "Python" || String.eqb language "Java"
  then 4%nat else 3%nat.

(** The rows of the tables of [scripts/generate_tip.py]: day name and
    language, index by index. *)
Definition SCRIPTS_ROWS : list (string * string) :=
  [("Sunday", "Wildcard"); ("Monday", "Python"); ("Tuesday", "Java");
   ("Wednesday", "JavaScript"); ("Thursday", "Go"); ("Friday", "Wildcard");
   ("Saturday", "Wildcard")].

(** The key is set in the environment to a non-empty value. *)
Definition supplied (environ : gmap string string) (key : string) : Prop :=
  exists v, environ !! key = Some v /\ v <> EmptyString.

(** The world's answer to a GraphQL request made after [tr]: a response
    with a success status whose body decodes to [payload]. *)
Definition answers (w : world) (tr : trace) (req : Requests.request)
    (payload : value) : Prop :=
  exists resp,
    requests_post w tr req = Ok resp
    /\ Requests.raise_for_status resp = Ok tt
    /\ Requests.json_body resp = Ok payload.

(** The rows of the tables of [workflows/generate_tip.py]. *)
Definition WORKFLOWS_ROWS : list (string * string) :=
  [("Sunday", "Wildcard"); ("Monday", "Python"); ("Tuesday", "Java");
   ("Wednesday", "Go"); ("Thursday", "JavaScript"); ("Friday", "Wildcard");
   ("Saturday", "Wildcard")].

(** The key is absent from the environment, or set to the empty string. *)
Definition missing (environ : gmap string string) (key : string) : Prop :=
  environ !! key = None \/ environ !! key = Some EmptyString.

(** The error [require_env] raises for a key. *)
Definition missing_message (key : string) : exn :=
  RuntimeError ("Missing required environment variable: " +:+ key).

(** A character is [lo] or its capital [up]. *)
Definition either_case (lo up c : ascii) : Prop := c = lo \/ c = up.

(** The sixteen spellings of "true": its four letters, each in either
    case. *)
Definition spells_true (v : string) : Prop :=
  exists t r u e,
    v = String t (String r (String u (String e EmptyString)))
    /\ either_case "t" "T" t /\ either_case "r" "R" r
    /\ either_case "u" "U" u /\ either_case "e" "E" e.

(** A line of a prompt's schedule list: the day, the language, what the
    variant pads the line with, and the line break. *)
Definition schedule_line (day language padding : string) : string :=
  "- " +:+ day +:+ " → " +:+ language +:+ padding +:+ Py.nl.

End Text.

(* ===================================================================== *)
(** ** Sample inputs                                                     *)
(* ===================================================================== *)

Module Sample.

(** Monday 1 January 2024. *)
Definition monday : Py.datetime := {| Py.year := 2024; Py.month := 1; Py.day := 1 |}.

Definition slug_env : gmap string string :=
  {[ "GITHUB_TOKEN" := "ghp_token";
     "GROQ_API_KEY" := "gsk_key";
     "REPO_NAME" := "acme/widgets";
     "DISCUSSION_CATEGORY_ID" := "DIC_1";
     "DRY_RUN" := "TRUE" ]}.

Definition bare_env : gmap string string :=
  <[ "REPO_NAME" := "widgets" ]> (<[ "REPO_OWNER" := "acme" ]> slug_env).

Definition ownerless_env : gmap string string :=
  <[ "REPO_NAME" := "widgets" ]> slug_env.

Definition nested_env : gmap string string :=
  <[ "REPO_NAME" := "a/b/c" ]> slug_env.

Definition cfg : Scripts.config :=
  {| Scripts.MODEL_NAME := "llama3-70b-8192";
     Scripts.GITHUB_TOKEN := "ghp_token";
     Scripts.GROQ_API_KEY := "gsk_key";
     Scripts.REPO_OWNER := "acme";
     Scripts.REPO_NAME := "widgets";
     Scripts.DISCUSSION_CATEGORY_ID := "DIC_1";
     Scripts.DRY_RUN := true |}.

Definition day_info : gmap string string :=
  {[ "day_name" := "Monday"; "language" := "Python"; "date" := "2024-01-01" ]}.

Definition completion (content : string) : Groq.ChatCompletion :=
  {| Groq.choices := [ {| Groq.message := {| Groq.content := Some (VStr content) |} |} ] |}.

(** A world in which it is that Monday, the completion service answers
    [content] and every request is answered 200 with the body [payload]. *)
Definition world_of (content : string) (payload : value) : world :=
  {| utc_now := monday;
     completions_create := fun _ _ => Ok (completion content);
     requests_post := fun _ _ =>
       Ok {| Requests.status_code := 200; Requests.json_body := Ok payload |} |}.

Definition errors_payload : gmap string value :=
  {[ "errors" := VList [VDict {[ "message" := VStr "boom" ]}] ]}.

Definition empty_repository_payload : gmap string value :=
  {[ "data" := VDict {[ "repository" := VDict ∅ ]} ]}.

Definition null_data_payload : gmap string value :=
  {[ "data" := VNone ]}.

(** A world that answers the first request with the repository id [R_123]
    and every later one with the URL of a new discussion. *)
Definition publishing_world : world :=
  {| utc_now := monday;
     completions_create := fun _ _ => Ok (completion "# Tip of the day");
     requests_post := fun tr _ =>
       Ok {| Requests.status_code := 200;
             Requests.json_body :=
               Ok (VDict
                     match posts tr with
                     | [] =>
                         {[ "data" :=
                              VDict {[ "repository" :=
                                         VDict {[ "id" := VStr "R_123" ]} ]} ]}
                     | _ =>
                         {[ "data" :=
                              VDict {[ "createDiscussion" :=
                                VDict {[ "discussion" :=
                                  VDict {[ "url" :=
                                    VStr "https://github.com/org/repo/discussions/42" ]} ]} ]} ]}
                     end) |} |}.

Definition publish_env : gmap string string := delete "DRY_RUN" slug_env.

(** [str] of the one value the samples render, [errors_payload]'s list. *)
Definition render (v : value) : string := "[{'message': 'boom'}]".

(** The configuration [publish_env] loads: no dry run. *)
Definition publish_cfg : Scripts.config :=
  {| Scripts.MODEL_NAME := "llama3-70b-8192";
     Scripts.GITHUB_TOKEN := "ghp_token";
     Scripts.GROQ_API_KEY := "gsk_key";
     Scripts.REPO_OWNER := "acme";
     Scripts.REPO_NAME := "widgets";
     Scripts.DISCUSSION_CATEGORY_ID := "DIC_1";
     Scripts.DRY_RUN := false |}.

End Sample.

(* ===================================================================== *)
(** * Proofs                                                             *)
(* ===================================================================== *)

(** Case analysis on whatever an effectful computation branches on next. *)
Ltac split_match :=
  match goal with
  | |- context [match ?x with _ => _ end] =>
      lazymatch type of x with
      | (_ * _)%type => fail
      | _ => destruct x
      end
  end.

(* ===================================================================== *)
(** ** Facts about the [str] operations                                  *)
(* ===================================================================== *)

Section Strings.

Lemma prefix_empty (s : string) : String.prefix EmptyString s = true.
Proof. destruct s; reflexivity. Qed.

Lemma prefix_refl (s : string) : String.prefix s s = true.
Proof.
  induction s as [| c s IH]; [reflexivity |].
  simpl. destruct (ascii_dec c c); [exact IH | congruence].
Qed.

Lemma prefix_app (s t : string) : String.prefix s (s +:+ t) = true.
Proof.
  induction s as [| c s IH]; [apply prefix_empty |].
  simpl. destruct (ascii_dec c c); [exact IH | congruence].
Qed.

Lemma str_in_suffix (sub before : string) : Py.str_in sub (before +:+ sub) = true.
Proof.
  induction before as [| c before IH]; simpl.
  - destruct sub as [| d sub]; [reflexivity |].
    change (String.prefix (String d sub) (String d sub) || Py.str_in (String d sub) sub = true).
    rewrite prefix_refl. reflexivity.
  - fold (String.append before sub). rewrite IH. apply orb_true_r.
Qed.

Lemma str_in_middle (sub before after : string) :
  Py.str_in sub (before +:+ sub +:+ after) = true.
Proof.
  induction before as [| c before IH]; simpl.
  - destruct sub as [| d sub]; simpl.
    + destruct after; reflexivity.
    + destruct (ascii_dec d d); [| congruence]. rewrite prefix_app. reflexivity.
  - rewrite IH. apply orb_true_r.
Qed.

(** Cutting at a separator of one character finds its first occurrence. *)
Lemma cut_at_first (c : ascii) (before after : string) :
  Py.str_in (String c EmptyString) before = false ->
  Py.cut (String c EmptyString) (before +:+ String c EmptyString +:+ after)
  = Some (before, after).
Proof.
  induction before as [| b before IH]; intros Hno; simpl.
  - destruct (ascii_dec c c); [| congruence]. rewrite prefix_empty. reflexivity.
  - simpl in Hno. destruct (ascii_dec c b) as [-> | Hne].
    + rewrite prefix_empty in Hno. discriminate.
    + simpl in Hno. rewrite (IH Hno). reflexivity.
Qed.

Lemma str_in_char_split (c : ascii) (s : string) :
  Py.str_in (String c EmptyString) s = true ->
  exists before after,
    s = before +:+ String c EmptyString +:+ after
    /\ Py.str_in (String c EmptyString) before = false.
Proof.
  induction s as [| b s IH]; simpl; [discriminate |].
  destruct (ascii_dec c b) as [-> | Hne]; intros H.
  - exists EmptyString, s. split; reflexivity.
  - simpl in H. destruct (IH H) as (before & after & -> & Hno).
    exists (String b before), after. split; [reflexivity |].
    simpl. destruct (ascii_dec c b); [congruence | exact Hno].
Qed.

Lemma if_truthy_some (v : string) :
  v <> EmptyString -> Py.if_truthy (Some v) = Some v.
Proof.
  intros Hv. simpl. destruct (String.eqb_spec v EmptyString); [contradiction | reflexivity].
Qed.

Lemma if_truthy_none (o : option string) :
  o = None \/ o = Some EmptyString -> Py.if_truthy o = None.
Proof. intros [-> | ->]; reflexivity. Qed.

(** [strip] at work: ASCII and non-ASCII white space goes, from both ends
    only; a text of white space alone strips to nothing. *)
Example strip_samples :
  Py.strip ("  Hello world" +:+ Py.nl) = "Hello world"
  /\ Py.strip (Py.of_bytes [226; 128; 137; 32; 104; 105; 194; 160]%nat) = "hi"
  /\ Py.strip (" " +:+ Py.nl +:+ Py.of_bytes [9; 227; 128; 128]%nat) = EmptyString
  /\ Py.strip EmptyString = EmptyString.
Proof. repeat split; vm_compute; reflexivity. Qed.

Example lower_samples :
  Py.lower "TRUE" = "true" /\ Py.lower "True" = "true" /\ Py.lower "tRuE" = "true"
  /\ Py.lower "yes" <> "true".
Proof. repeat split; try reflexivity. vm_compute. discriminate. Qed.

End Strings.

(* ===================================================================== *)
(** ** Schedule resolver                                                  *)
(* ===================================================================== *)

Section Schedule.

Lemma weekday_range (d : Py.datetime) : 0 <= Py.weekday d <= 6.
Proof.
  unfold Py.weekday.
  pose proof (Z.mod_pos_bound (Py.toordinal d + 6) 7 ltac:(lia)). lia.
Qed.

Lemma sunday_first_eq (d : Py.datetime) :
  Scripts.sunday_first d = (Py.weekday d + 1) mod 7.
Proof.
  unfold Scripts.sunday_first.
  pose proof (weekday_range d) as Hr.
  destruct (Z.eqb_spec (Py.weekday d) 6) as [E | E]; simpl.
  - rewrite E. reflexivity.
  - rewrite Z.mod_small by lia. reflexivity.
Qed.

Lemma variants_share_index (d : Py.datetime) :
  Workflows.sunday_first d = Scripts.sunday_first d.
Proof. reflexivity. Qed.

(** The seven values of the primitive, one goal each. *)
Ltac each_weekday p Hr :=
  assert (p = 0 \/ p = 1 \/ p = 2 \/ p = 3 \/ p = 4 \/ p = 5 \/ p = 6) as Hcases by lia;
  clear Hr; destruct Hcases as [-> | [-> | [-> | [-> | [-> | [-> | ->]]]]]].

Lemma scripts_day_info (w : world) (i : Z) (day_name language : string) :
  Scripts.sunday_first (utc_now w) = i ->
  Scripts.DAY_NAMES !! i = Some day_name ->
  Scripts.LANGUAGE_SCHEDULE !! i = Some language ->
  Scripts.get_current_day_info w
  = Ok {[ "day_name" := day_name; "language" := language;
          "date" := Py.strftime_Ymd (utc_now w) ]}.
Proof.
  intros Hi Hd Hl. unfold Scripts.get_current_day_info, Py.lookup_int.
  rewrite Hi, Hd. cbn [bind]. rewrite Hl. reflexivity.
Qed.

Lemma workflows_day_info (w : world) (i : Z) (day_name language : string) :
  Workflows.sunday_first (utc_now w) = i ->
  Workflows.DAY_NAMES !! i = Some day_name ->
  Workflows.LANGUAGE_SCHEDULE !! i = Some language ->
  Workflows.get_current_day_info w
  = Ok {[ "day_name" := day_name; "language" := language;
          "date" := Py.strftime_Ymd (utc_now w) ]}.
Proof.
  intros Hi Hd Hl. unfold Workflows.get_current_day_info, Py.lookup_int.
  rewrite Hi, Hd. cbn [bind]. rewrite Hl. reflexivity.
Qed.

(** C1. At every instant the resolver looks its tables up at the index
    that is 0 when [weekday()] gives 6 and [weekday() + 1] otherwise; the
    index lies in 0..6, both variants compute the same one, and the day
    name found there is the name of the day the primitive numbered. *)
Theorem resolver_reindexes_weekday (w : world) :
  let p := Py.weekday (utc_now w) in
  let i := Scripts.sunday_first (utc_now w) in
  (p = 6 -> i = 0) /\ (p <> 6 -> i = p + 1) /\ 0 <= i <= 6
  /\ Workflows.sunday_first (utc_now w) = i
  /\ (exists language,
        Scripts.DAY_NAMES !! i = Some (Text.monday_first p)
        /\ Scripts.LANGUAGE_SCHEDULE !! i = Some language
        /\ Scripts.get_current_day_info w
           = Ok {[ "day_name" := Text.monday_first p; "language" := language;
                   "date" := Py.strftime_Ymd (utc_now w) ]})
  /\ (exists language,
        Workflows.DAY_NAMES !! i = Some (Text.monday_first p)
        /\ Workflows.LANGUAGE_SCHEDULE !! i = Some language
        /\ Workflows.get_current_day_info w
           = Ok {[ "day_name" := Text.monday_first p; "language" := language;
                   "date" := Py.strftime_Ymd (utc_now w) ]}).
Proof.
  intros p i.
  pose proof (weekday_range (utc_now w)) as Hr. fold p in Hr.
  assert (Hi : i = (p + 1) mod 7) by apply sunday_first_eq.
  assert (H6 : p = 6 -> i = 0) by (intros E; rewrite Hi, E; reflexivity).
  assert (Hn : p <> 6 -> i = p + 1) by (intros E; rewrite Hi, Z.mod_small; lia).
  repeat split; try assumption.
  - pose proof (Z.mod_pos_bound (p + 1) 7 ltac:(lia)); lia.
  - pose proof (Z.mod_pos_bound (p + 1) 7 ltac:(lia)); lia.
  - assert (Hw : Scripts.sunday_first (utc_now w) = i) by reflexivity.
    clearbody i p. clear H6 Hn. each_weekday p Hr; subst i;
      eexists; (split; [| split; [| eapply scripts_day_info; [exact Hw | |]]]);
      reflexivity.
  - assert (Hw : Workflows.sunday_first (utc_now w) = i) by reflexivity.
    clearbody i p. clear H6 Hn. each_weekday p Hr; subst i;
      eexists; (split; [| split; [| eapply workflows_day_info; [exact Hw | |]]]);
      reflexivity.
Qed.

Lemma seven_entries (t : gmap Z string) (v0 v1 v2 v3 v4 v5 v6 : string) (i : Z) :
  t = {[ 0 := v0; 1 := v1; 2 := v2; 3 := v3; 4 := v4; 5 := v5; 6 := v6 ]} ->
  is_Some (t !! i) <-> 0 <= i <= 6.
Proof.
  intros ->. split.
  - intros [v Hv].
    destruct (decide (0 <= i <= 6)) as [|Hout]; [assumption | exfalso].
    rewrite !lookup_insert_ne in Hv by lia.
    rewrite lookup_singleton_ne in Hv by lia. discriminate.
  - intros Hr.
    assert (i = 0 \/ i = 1 \/ i = 2 \/ i = 3 \/ i = 4 \/ i = 5 \/ i = 6) as Hcases by lia.
    destruct Hcases as [-> | [-> | [-> | [-> | [-> | [-> | ->]]]]]]; eexists; reflexivity.
Qed.

(** C7. Each of the four tables is defined exactly at the indices 0..6,
    and at every instant each resolver succeeds with the day name and the
    language that its tables hold at one index of that range. *)
Theorem schedule_is_total (w : world) :
  (forall i : Z,
      (is_Some (Scripts.LANGUAGE_SCHEDULE !! i) <-> 0 <= i <= 6)
      /\ (is_Some (Scripts.DAY_NAMES !! i) <-> 0 <= i <= 6)
      /\ (is_Some (Workflows.LANGUAGE_SCHEDULE !! i) <-> 0 <= i <= 6)
      /\ (is_Some (Workflows.DAY_NAMES !! i) <-> 0 <= i <= 6))
  /\ (exists (i : Z) (day_name language : string),
        0 <= i <= 6
        /\ Scripts.DAY_NAMES !! i = Some day_name
        /\ Scripts.LANGUAGE_SCHEDULE !! i = Some language
        /\ Scripts.get_current_day_info w
           = Ok {[ "day_name" := day_name; "language" := language;
                   "date" := Py.strftime_Ymd (utc_now w) ]})
  /\ (exists (i : Z) (day_name language : string),
        0 <= i <= 6
        /\ Workflows.DAY_NAMES !! i = Some day_name
        /\ Workflows.LANGUAGE_SCHEDULE !! i = Some language
        /\ Workflows.get_current_day_info w
           = Ok {[ "day_name" := day_name; "language" := language;
                   "date" := Py.strftime_Ymd (utc_now w) ]}).
Proof.
  split; [| split].
  - intros i. split; [| split; [| split]]; eapply seven_entries; reflexivity.
  - set (i := Scripts.sunday_first (utc_now w)).
    assert (Hr : 0 <= i <= 6).
    { unfold i. rewrite sunday_first_eq.
      pose proof (Z.mod_pos_bound (Py.weekday (utc_now w) + 1) 7 ltac:(lia)). lia. }
    destruct (proj2 (seven_entries Scripts.DAY_NAMES _ _ _ _ _ _ _ i eq_refl) Hr)
      as [day_name Hd].
    destruct (proj2 (seven_entries Scripts.LANGUAGE_SCHEDULE _ _ _ _ _ _ _ i eq_refl) Hr)
      as [language Hl].
    exists i, day_name, language. repeat split; try assumption; try lia.
    now apply scripts_day_info with (i := i).
  - set (i := Workflows.sunday_first (utc_now w)).
    assert (Hr : 0 <= i <= 6).
    { unfold i. rewrite variants_share_index, sunday_first_eq.
      pose proof (Z.mod_pos_bound (Py.weekday (utc_now w) + 1) 7 ltac:(lia)). lia. }
    destruct (proj2 (seven_entries Workflows.DAY_NAMES _ _ _ _ _ _ _ i eq_refl) Hr)
      as [day_name Hd].
    destruct (proj2 (seven_entries Workflows.LANGUAGE_SCHEDULE _ _ _ _ _ _ _ i eq_refl) Hr)
      as [language Hl].
    exists i, day_name, language. repeat split; try assumption; try lia.
    now apply workflows_day_info with (i := i).
Qed.

(** C9. The two language tables differ at Wednesday (3) and Thursday (4),
    where they hold JavaScript and Go in opposite order, and agree at every
    other index. *)
Theorem schedules_differ_midweek :
  Scripts.LANGUAGE_SCHEDULE !! 3 = Some "JavaScript"
  /\ Scripts.LANGUAGE_SCHEDULE !! 4 = Some "Go"
  /\ Workflows.LANGUAGE_SCHEDULE !! 3 = Some "Go"
  /\ Workflows.LANGUAGE_SCHEDULE !! 4 = Some "JavaScript"
  /\ Scripts.DAY_NAMES !! 3 = Some "Wednesday"
  /\ Scripts.DAY_NAMES !! 4 = Some "Thursday"
  /\ Workflows.DAY_NAMES = Scripts.DAY_NAMES
  /\ forall i : Z,
       Scripts.LANGUAGE_SCHEDULE !! i = Workflows.LANGUAGE_SCHEDULE !! i
       <-> (i <> 3 /\ i <> 4).
Proof.
  do 7 (split; [reflexivity |]).
  intros i. split.
  - intros H. split; intros ->; discriminate H.
  - intros [H3 H4].
    unfold Scripts.LANGUAGE_SCHEDULE, Workflows.LANGUAGE_SCHEDULE.
    destruct (decide (i = 0)) as [-> | ?]; [reflexivity |].
    destruct (decide (i = 1)) as [-> | ?]; [reflexivity |].
    destruct (decide (i = 2)) as [-> | ?]; [reflexivity |].
    destruct (decide (i = 5)) as [-> | ?]; [reflexivity |].
    destruct (decide (i = 6)) as [-> | ?]; [reflexivity |].
    rewrite !lookup_insert_ne by lia.
    rewrite !lookup_singleton_ne by lia. reflexivity.
Qed.

(** At every instant the resolver of the scripts variant returns one of
    the seven rows, with the date of that instant. *)
Lemma scripts_resolves (w : world) :
  exists day_name language,
    In (day_name, language) Text.SCRIPTS_ROWS
    /\ Scripts.get_current_day_info w
       = Ok {[ "day_name" := day_name; "language" := language;
               "date" := Py.strftime_Ymd (utc_now w) ]}.
Proof.
  pose proof (weekday_range (utc_now w)) as Hr.
  unfold Scripts.get_current_day_info, Scripts.sunday_first.
  set (p := Py.weekday (utc_now w)) in *.
  unfold Text.SCRIPTS_ROWS.
  each_weekday p Hr; do 2 eexists; (split; [| reflexivity]); cbn [In]; tauto.
Qed.

End Schedule.

(* ===================================================================== *)
(** ** Environment loader                                                 *)
(* ===================================================================== *)

Section Loader.

Variable environ : gmap string string.

Lemma require_env_supplied (key v : string) :
  environ !! key = Some v -> v <> EmptyString ->
  Scripts.require_env environ key = Ok v.
Proof.
  intros Hk Hv. unfold Scripts.require_env. rewrite Hk, if_truthy_some by exact Hv.
  reflexivity.
Qed.

Lemma require_env_missing (key : string) :
  environ !! key = None \/ environ !! key = Some EmptyString ->
  Scripts.require_env environ key
  = Raise (RuntimeError ("Missing required environment variable: " +:+ key)).
Proof.
  intros H. unfold Scripts.require_env. rewrite if_truthy_none by exact H. reflexivity.
Qed.

(** C8. [require_env] returns the value of a key that is set and not
    empty, unchanged; for a key that is absent or empty it raises a
    [RuntimeError] whose message ends with, and so names, the key. *)
Theorem require_env_contract (var_name : string) :
  (forall v, environ !! var_name = Some v -> v <> EmptyString ->
             Scripts.require_env environ var_name = Ok v)
  /\ (environ !! var_name = None \/ environ !! var_name = Some EmptyString ->
      exists msg,
        Scripts.require_env environ var_name = Raise (RuntimeError msg)
        /\ msg = "Missing required environment variable: " +:+ var_name
        /\ Text.mentions var_name (RuntimeError msg) = true)
  /\ (forall v, Scripts.require_env environ var_name = Ok v ->
                environ !! var_name = Some v /\ v <> EmptyString).
Proof.
  split; [| split].
  - intros v. apply require_env_supplied.
  - intros H. eexists. split; [apply require_env_missing, H |]. split; [reflexivity |].
    unfold Text.mentions. cbn [exn_args existsb]. rewrite str_in_suffix. reflexivity.
  - intros v. unfold Scripts.require_env.
    destruct (environ !! var_name) as [x |]; simpl; [| discriminate].
    destruct (String.eqb_spec x EmptyString); [discriminate |].
    intros [= ->]. split; [reflexivity | assumption].
Qed.

Lemma load_config_identity (token key raw category owner name : string) :
  environ !! "GITHUB_TOKEN" = Some token -> token <> EmptyString ->
  environ !! "GROQ_API_KEY" = Some key -> key <> EmptyString ->
  environ !! "REPO_NAME" = Some raw -> raw <> EmptyString ->
  environ !! "DISCUSSION_CATEGORY_ID" = Some category -> category <> EmptyString ->
  Scripts.repo_identity (environ !! "REPO_OWNER") raw = Ok (owner, name) ->
  exists cfg,
    Scripts.load_config environ = Ok cfg
    /\ Scripts.REPO_OWNER cfg = owner /\ Scripts.REPO_NAME cfg = name
    /\ Scripts.GITHUB_TOKEN cfg = token /\ Scripts.GROQ_API_KEY cfg = key
    /\ Scripts.DISCUSSION_CATEGORY_ID cfg = category.
Proof.
  intros Ht Ht' Hk Hk' Hr Hr' Hc Hc' Hid. unfold Scripts.load_config.
  rewrite (require_env_supplied _ _ Ht Ht'). cbn [bind].
  rewrite (require_env_supplied _ _ Hk Hk'). cbn [bind].
  rewrite (require_env_supplied _ _ Hr Hr'). cbn [bind].
  rewrite Hid. cbn [bind].
  rewrite (require_env_supplied _ _ Hc Hc'). cbn [bind].
  eexists. split; [reflexivity |]. repeat split.
Qed.

Lemma load_config_identity_error (token key raw : string) (e : exn) :
  environ !! "GITHUB_TOKEN" = Some token -> token <> EmptyString ->
  environ !! "GROQ_API_KEY" = Some key -> key <> EmptyString ->
  environ !! "REPO_NAME" = Some raw -> raw <> EmptyString ->
  Scripts.repo_identity (environ !! "REPO_OWNER") raw = Raise e ->
  Scripts.load_config environ = Raise e.
Proof.
  intros Ht Ht' Hk Hk' Hr Hr' Hid. unfold Scripts.load_config.
  rewrite (require_env_supplied _ _ Ht Ht'). cbn [bind].
  rewrite (require_env_supplied _ _ Hk Hk'). cbn [bind].
  rewrite (require_env_supplied _ _ Hr Hr'). cbn [bind].
  rewrite Hid. reflexivity.
Qed.

Lemma repo_identity_slug (owner_env : option string) (owner name : string) :
  Py.str_in "/" owner = false ->
  Scripts.repo_identity owner_env (owner +:+ "/" +:+ name) = Ok (owner, name).
Proof.
  intros Hno. unfold Scripts.repo_identity, Py.split1.
  rewrite str_in_middle, cut_at_first by exact Hno. reflexivity.
Qed.

(** C4. With the two tokens set and the repository name [raw] set and not
    empty: a [raw] holding a "/" is split into the owner before the
    separator and the name after it; a [raw] without one is kept as the
    name beside the owner given in [REPO_OWNER]; and without an owner
    there, loading raises the configuration error about [REPO_OWNER]. *)
Theorem repository_identity_loaded (raw : string) :
  Text.supplied environ "GITHUB_TOKEN" ->
  Text.supplied environ "GROQ_API_KEY" ->
  environ !! "REPO_NAME" = Some raw -> raw <> EmptyString ->
  (Py.str_in "/" raw = true ->
   Text.supplied environ "DISCUSSION_CATEGORY_ID" ->
   exists cfg owner name,
     Scripts.load_config environ = Ok cfg
     /\ raw = owner +:+ "/" +:+ name /\ Py.str_in "/" owner = false
     /\ Scripts.REPO_OWNER cfg = owner /\ Scripts.REPO_NAME cfg = name)
  /\ (Py.str_in "/" raw = false ->
      Text.supplied environ "DISCUSSION_CATEGORY_ID" ->
      forall owner, environ !! "REPO_OWNER" = Some owner -> owner <> EmptyString ->
      exists cfg,
        Scripts.load_config environ = Ok cfg
        /\ Scripts.REPO_OWNER cfg = owner /\ Scripts.REPO_NAME cfg = raw)
  /\ (Py.str_in "/" raw = false ->
      environ !! "REPO_OWNER" = None \/ environ !! "REPO_OWNER" = Some EmptyString ->
      Scripts.load_config environ
      = Raise (RuntimeError
          "REPO_OWNER environment variable is required when REPO_NAME does not include the owner"))
  /\ Scripts.repo_identity None "acme/widgets" = Ok ("acme", "widgets").
Proof.
  intros (token & Ht & Ht') (key & Hk & Hk') Hr Hr'.
  split; [| split; [| split]].
  - intros Hin (category & Hc & Hc').
    destruct (str_in_char_split _ _ Hin) as (owner & name & -> & Hno).
    destruct (load_config_identity token key (owner +:+ "/" +:+ name) category owner name)
      as (cfg & H & Ho & Hn & _); try assumption.
    { apply repo_identity_slug, Hno. }
    exists cfg, owner, name. repeat split; assumption.
  - intros Hin (category & Hc & Hc') owner Ho Ho'.
    destruct (load_config_identity token key raw category owner raw) as (cfg & H & Hco & Hcn & _);
      try assumption.
    { unfold Scripts.repo_identity. rewrite Hin, Ho, if_truthy_some by exact Ho'.
      reflexivity. }
    exists cfg. repeat split; assumption.
  - intros Hin Ho.
    apply (load_config_identity_error token key raw); try assumption.
    unfold Scripts.repo_identity. rewrite Hin, if_truthy_none by exact Ho. reflexivity.
  - reflexivity.
Qed.

(** C10. A repository name with several separators is split at the first
    one only: for every owner without a "/" and every rest, the name
    [owner/rest] loads as that owner and that rest, whatever separators
    the rest holds and whatever [REPO_OWNER] is set to. *)
Theorem repository_split_at_first_separator (owner rest : string) :
  Text.supplied environ "GITHUB_TOKEN" ->
  Text.supplied environ "GROQ_API_KEY" ->
  Text.supplied environ "DISCUSSION_CATEGORY_ID" ->
  environ !! "REPO_NAME" = Some (owner +:+ "/" +:+ rest) ->
  Py.str_in "/" owner = false ->
  (exists cfg,
     Scripts.load_config environ = Ok cfg
     /\ Scripts.REPO_OWNER cfg = owner /\ Scripts.REPO_NAME cfg = rest)
  /\ Scripts.repo_identity (environ !! "REPO_OWNER") "a/b/c" = Ok ("a", "b/c").
Proof.
  intros (token & Ht & Ht') (key & Hk & Hk') (category & Hc & Hc') Hr Hno.
  split; [| reflexivity].
  destruct (load_config_identity token key (owner +:+ "/" +:+ rest) category owner rest)
    as (cfg & H & Ho & Hn & _); try assumption.
  - destruct owner; discriminate.
  - apply repo_identity_slug, Hno.
  - exists cfg. repeat split; assumption.
Qed.

End Loader.

(* ===================================================================== *)
(** ** Completion client                                                  *)
(* ===================================================================== *)

Section Completion.

Variables (w : world) (cfg : Scripts.config) (day_info : gmap string string).
Variables (tr : trace) (prompt : string) (response : Groq.ChatCompletion).

Hypothesis prompt_built : Scripts.build_user_prompt day_info = Ok prompt.
Hypothesis answered :
  completions_create w tr (Scripts.completion_request cfg prompt) = Ok response.

(** What [generate_programming_tip] does once the service has answered:
    the checks on the response, on their own. *)
Lemma generate_programming_tip_answered :
  Scripts.generate_programming_tip w cfg day_info tr
  = ((tr ++ [Completion (Scripts.completion_request cfg prompt)])%list,
     match Groq.choices response with
     | [] => Raise (RuntimeError "Groq completion response did not contain choices")
     | first :: _ =>
         match Groq.content (Groq.message first) with
         | Some (VStr text) =>
             if String.eqb text EmptyString then
               Raise (RuntimeError
                 "Received empty or non-string content from Groq completion")
             else if String.eqb (Py.strip text) EmptyString then
               Raise (RuntimeError
                 "Groq completion content was blank after stripping whitespace")
             else Ok (Py.strip text)
         | _ =>
             Raise (RuntimeError
               "Received empty or non-string content from Groq completion")
         end
     end).
Proof.
  unfold Scripts.generate_programming_tip, io_bind, lift, create_completion.
  rewrite prompt_built, answered.
  destruct (Groq.choices response) as [| first rest]; [reflexivity |].
  destruct (Groq.content (Groq.message first)) as [[| | | | text | |] |]; try reflexivity.
  cbn [default from_option id Py.truthy negb].
  destruct (String.eqb text EmptyString); [reflexivity |]. cbn [negb].
  destruct (String.eqb (Py.strip text) EmptyString); reflexivity.
Qed.

(** C3. Once the service has answered, the client raises when the list of
    choices is empty, when the first choice's content is absent or is not
    a string, and when the content is a string that [strip] leaves empty
    (an empty or all-whitespace one); in every other case it returns the
    stripped content. *)
Theorem completion_content_checked :
  let outcome := snd (Scripts.generate_programming_tip w cfg day_info tr) in
  (Groq.choices response = [] ->
   outcome = Raise (RuntimeError "Groq completion response did not contain choices"))
  /\ (forall first rest,
        Groq.choices response = first :: rest ->
        (forall text, Groq.content (Groq.message first) <> Some (VStr text)) ->
        outcome
        = Raise (RuntimeError "Received empty or non-string content from Groq completion"))
  /\ (forall first rest text,
        Groq.choices response = first :: rest ->
        Groq.content (Groq.message first) = Some (VStr text) ->
        Py.strip text = EmptyString ->
        exists msg, outcome = Raise (RuntimeError msg))
  /\ (forall first rest text,
        Groq.choices response = first :: rest ->
        Groq.content (Groq.message first) = Some (VStr text) ->
        Py.strip text <> EmptyString ->
        outcome = Ok (Py.strip text)).
Proof.
  intros outcome. unfold outcome. rewrite generate_programming_tip_answered. cbn [snd].
  split; [| split; [| split]].
  - intros ->. reflexivity.
  - intros first rest -> Hcontent.
    destruct (Groq.content (Groq.message first)) as [[| | | | text | |] |]; try reflexivity.
    destruct (Hcontent text). reflexivity.
  - intros first rest text -> -> Hblank. rewrite Hblank.
    destruct (String.eqb text EmptyString); eexists; reflexivity.
  - intros first rest text -> -> Hfull.
    destruct (String.eqb_spec text EmptyString) as [-> | _].
    + destruct Hfull. reflexivity.
    + destruct (String.eqb_spec (Py.strip text) EmptyString); [contradiction | reflexivity].
Qed.

End Completion.

(* ===================================================================== *)
(** ** Shapes of texts and counts of occurrences                         *)
(* ===================================================================== *)

Section Shapes.

Lemma shape_app (a b : string) : Text.shape (a +:+ b) = Text.shape a +:+ Text.shape b.
Proof. induction a as [| c a IH]; simpl; [reflexivity | now rewrite IH]. Qed.

Lemma prefix_shape (n s : string) :
  String.prefix n s = true -> String.prefix (Text.shape n) (Text.shape s) = true.
Proof.
  revert s. induction n as [| c n IH]; intros s H; [destruct s; reflexivity |].
  destruct s as [| d s]; simpl in *; [discriminate |].
  destruct (ascii_dec c d) as [-> | Hne]; [| discriminate].
  destruct (ascii_dec _ _); [apply IH, H | congruence].
Qed.

Lemma prefix_shape_digit_free (n s : string) :
  Text.digit_free n = true -> String.prefix n (Text.shape s) = String.prefix n s.
Proof.
  revert s. induction n as [| c n IH]; intros s Hfree.
  - destruct s; reflexivity.
  - simpl in Hfree. apply andb_true_iff in Hfree as [Hc Hn].
    destruct s as [| d s]; [reflexivity |]. simpl.
    destruct (Text.is_digit d) eqn:Hd.
    + destruct (ascii_dec c "0") as [-> | _]; [discriminate Hc |].
      destruct (ascii_dec c d) as [-> | _]; [| reflexivity].
      rewrite Hd in Hc. discriminate Hc.
    + destruct (ascii_dec c d); [apply IH, Hn | reflexivity].
Qed.

Lemma occurrences_shape_digit_free (n s : string) :
  Text.digit_free n = true -> Text.occurrences n (Text.shape s) = Text.occurrences n s.
Proof.
  intros Hfree. induction s as [| c s IH]; [reflexivity |].
  change (Text.shape (String c s)) with
    (String (if Text.is_digit c then "0"%char else c) (Text.shape s)).
  cbn [Text.occurrences]. rewrite IH. f_equal.
  change (String (if Text.is_digit c then "0"%char else c) (Text.shape s))
    with (Text.shape (String c s)).
  now rewrite prefix_shape_digit_free.
Qed.

Lemma occurrences_shape_le (n s : string) :
  (Text.occurrences n s <= Text.occurrences (Text.shape n) (Text.shape s))%nat.
Proof.
  induction s as [| c s IH].
  - cbn [Text.occurrences Text.shape].
    destruct (String.prefix n EmptyString) eqn:H; [| lia].
    apply prefix_shape in H. cbn [Text.shape] in H. rewrite H. lia.
  - change (Text.shape (String c s)) with
      (String (if Text.is_digit c then "0"%char else c) (Text.shape s)).
    cbn [Text.occurrences].
    change (String (if Text.is_digit c then "0"%char else c) (Text.shape s))
      with (Text.shape (String c s)).
    destruct (String.prefix n (String c s)) eqn:H.
    + apply prefix_shape in H. rewrite H. lia.
    + destruct (String.prefix _ _); lia.
Qed.

Lemma occurrences_middle (n a b : string) :
  (1 <= Text.occurrences n (a +:+ n +:+ b))%nat.
Proof.
  induction a as [| c a IH].
  - change (EmptyString +:+ n +:+ b) with (n +:+ b).
    destruct (n +:+ b) as [| d r] eqn:E.
    + destruct n; [| discriminate E]. cbn. lia.
    + cbn [Text.occurrences]. rewrite <- E, prefix_app. lia.
  - change (String c a +:+ n +:+ b) with (String c (a +:+ n +:+ b)).
    cbn [Text.occurrences]. lia.
Qed.

Lemma in_order_shape_digit_free (names : list string) (s : string) :
  forallb Text.digit_free names = true ->
  Text.in_order names (Text.shape s) = Text.in_order names s.
Proof.
  revert names. induction s as [| c s IH]; intros names Hfree.
  - destruct names; reflexivity.
  - destruct names as [| n rest]; [reflexivity |].
    change (Text.shape (String c s)) with
      (String (if Text.is_digit c then "0"%char else c) (Text.shape s)).
    cbn [Text.in_order].
    change (String (if Text.is_digit c then "0"%char else c) (Text.shape s))
      with (Text.shape (String c s)).
    pose proof Hfree as Hall. cbn [forallb] in Hfree.
    apply andb_true_iff in Hfree as [Hn Hrest].
    rewrite (prefix_shape_digit_free _ _ Hn), (IH rest Hrest), (IH (n :: rest) Hall).
    reflexivity.
Qed.

Lemma digit_is_digit (n : Z) : Text.is_digit (Py.digit n) = true.
Proof.
  unfold Py.digit.
  pose proof (Z.mod_pos_bound n 10 ltac:(lia)) as Hr.
  assert (n mod 10 = 0 \/ n mod 10 = 1 \/ n mod 10 = 2 \/ n mod 10 = 3 \/ n mod 10 = 4
          \/ n mod 10 = 5 \/ n mod 10 = 6 \/ n mod 10 = 7 \/ n mod 10 = 8 \/ n mod 10 = 9)
    as Hcases by lia.
  destruct Hcases as [-> | [-> | [-> | [-> | [-> | [-> | [-> | [-> | [-> | ->]]]]]]]]];
    reflexivity.
Qed.

Lemma shape_date (d : Py.datetime) : Text.shape (Py.strftime_Ymd d) = "0000-00-00".
Proof.
  unfold Py.strftime_Ymd, Py.zero_pad4, Py.zero_pad2.
  rewrite !shape_app. cbn -[Py.digit Text.is_digit]. rewrite !digit_is_digit. reflexivity.
Qed.

End Shapes.

(* ===================================================================== *)
(** ** Prompt builder                                                     *)
(* ===================================================================== *)

Section Prompt.

(** The user prompt around the date. *)
Lemma user_prompt_around_date (date day_name language : string) :
  exists before after,
    Scripts.user_prompt date day_name language = before +:+ date +:+ after
    /\ forall date', Scripts.user_prompt date' day_name language
                     = before +:+ date' +:+ after.
Proof.
  eexists (lines ["Create today's GitHub Discussion post for the Daily Programming Insight series."; ""; "Date: "]).
  eexists. split; [| intros date']; reflexivity.
Qed.

Lemma user_prompt_shape (d : Py.datetime) (day_name language : string) :
  Text.shape (Scripts.user_prompt (Py.strftime_Ymd d) day_name language)
  = Text.shape (Scripts.user_prompt "0000-00-00" day_name language).
Proof.
  destruct (user_prompt_around_date (Py.strftime_Ymd d) day_name language)
    as (before & after & Hd & Hany).
  rewrite Hd, (Hany "0000-00-00"), !shape_app, shape_date. reflexivity.
Qed.

(** The counts of a rendered prompt, read off the prompt of the same day
    and language for a date of zeros. *)
Lemma user_prompt_counts (d : Py.datetime) (day_name language : string) :
  let prompt := Scripts.user_prompt (Py.strftime_Ymd d) day_name language in
  let zeros := Text.shape (Scripts.user_prompt "0000-00-00" day_name language) in
  Text.digit_free day_name = true -> Text.digit_free language = true ->
  (1 <= Text.occurrences (Py.strftime_Ymd d) prompt <= Text.occurrences "0000-00-00" zeros)%nat
  /\ Text.occurrences day_name prompt = Text.occurrences day_name zeros
  /\ Text.occurrences language prompt = Text.occurrences language zeros
  /\ Text.in_order Text.SECTION_NAMES prompt = Text.in_order Text.SECTION_NAMES zeros.
Proof.
  intros prompt zeros Hday Hlang. unfold zeros. rewrite <- (user_prompt_shape d).
  fold prompt. repeat split.
  - unfold prompt.
    destruct (user_prompt_around_date (Py.strftime_Ymd d) day_name language)
      as (before & after & -> & _).
    apply occurrences_middle.
  - rewrite <- (shape_date d). apply occurrences_shape_le.
  - symmetry. apply occurrences_shape_digit_free, Hday.
  - symmetry. apply occurrences_shape_digit_free, Hlang.
  - symmetry. apply in_order_shape_digit_free. reflexivity.
Qed.

(** A digit-free text occurs in a rendered prompt as often as in the
    prompt of the same day and language for a date of zeros. *)
Lemma user_prompt_count (d : Py.datetime) (day_name language needle : string) :
  Text.digit_free needle = true ->
  Text.occurrences needle (Scripts.user_prompt (Py.strftime_Ymd d) day_name language)
  = Text.occurrences needle
      (Text.shape (Scripts.user_prompt "0000-00-00" day_name language)).
Proof.
  intros Hfree. rewrite <- (user_prompt_shape d).
  symmetry. apply occurrences_shape_digit_free, Hfree.
Qed.

(** Names found in order stay found in order behind more text, and
    without the first of them. *)
Lemma in_order_behind (names : list string) :
  (forall s c, Text.in_order names s = true -> Text.in_order names (String c s) = true)
  /\ (forall n s, Text.in_order (n :: names) s = true -> Text.in_order names s = true).
Proof.
  induction names as [| m names [IHmono IHdrop]].
  - split; [reflexivity | intros n s _; destruct s; reflexivity].
  - assert (Hdrop : forall n s,
               Text.in_order (n :: m :: names) s = true
               -> Text.in_order (m :: names) s = true).
    { intros n s. induction s as [| d s IHs]; [discriminate |].
      cbn [Text.in_order].
      destruct (String.prefix n (String d s)); intros H.
      - destruct (String.prefix m (String d s)); [eapply IHdrop, H | exact H].
      - specialize (IHs H).
        destruct (String.prefix m (String d s)); [eapply IHdrop, IHs | exact IHs]. }
    split; [| exact Hdrop].
    intros s c H. cbn [Text.in_order].
    destruct (String.prefix m (String c s)); [eapply IHdrop, H | exact H].
Qed.

Lemma in_order_app_r (names : list string) (a b : string) :
  Text.in_order names b = true -> Text.in_order names (a +:+ b) = true.
Proof.
  intros H. induction a as [| c a IH]; [exact H |].
  change (String c a +:+ b) with (String c (a +:+ b)).
  apply (proj1 (in_order_behind names)), IH.
Qed.

(** The user prompt behind the date holds the numbered headings in their
    order. *)
Lemma user_prompt_headings :
  exists tail : string -> string -> string,
    (forall date day_name language,
        Scripts.user_prompt date day_name language
        = lines ["Create today's GitHub Discussion post for the Daily Programming Insight series."; ""; "Date: "]
          +:+ date +:+ tail day_name language)
    /\ forall day_name language,
         In (day_name, language) Text.SCRIPTS_ROWS ->
         Text.in_order Text.SECTION_HEADINGS (tail day_name language) = true.
Proof.
  eexists. split.
  - intros date day_name language. reflexivity.
  - intros day_name language Hin. unfold Text.SCRIPTS_ROWS in Hin. cbn [In] in Hin.
    repeat (destruct Hin as [[= <- <-] | Hin]; [vm_compute; reflexivity |]).
    contradiction.
Qed.

(** C6, as the code has it.  At every instant the prompt built from the
    resolved day info holds the date exactly once; the day name exactly
    twice, one of them on its [Day:] line (the other is in the schedule
    list); the language exactly three times, and four times when it is
    Python or Java, one of them on the [Scheduled Language:] line and one
    in the closing requirement, the two places where the f-string writes
    it (the others are in the fixed text); and the seven numbered
    headings, and so the seven section names, at increasing positions in
    their fixed order. *)
Theorem prompt_embeds_day_info (w : world) :
  exists day_name language prompt,
    Scripts.get_current_day_info w
    = Ok {[ "day_name" := day_name; "language" := language;
            "date" := Py.strftime_Ymd (utc_now w) ]}
    /\ Scripts.build_user_prompt
         {[ "day_name" := day_name; "language" := language;
            "date" := Py.strftime_Ymd (utc_now w) ]} = Ok prompt
    /\ Text.occurrences (Py.strftime_Ymd (utc_now w)) prompt = 1%nat
    /\ Text.occurrences day_name prompt = 2%nat
    /\ Text.occurrences ("Day: " +:+ day_name +:+ Py.nl) prompt = 1%nat
    /\ Text.occurrences language prompt = Text.language_count language
    /\ Text.occurrences ("Scheduled Language: " +:+ language +:+ Py.nl) prompt = 1%nat
    /\ Text.occurrences ("scheduled language (" +:+ language +:+ ").") prompt = 1%nat
    /\ Text.in_order Text.SECTION_NAMES prompt = true
    /\ Text.in_order Text.SECTION_HEADINGS prompt = true.
Proof.
  destruct (scripts_resolves w) as (day_name & language & Hin & Hinfo).
  exists day_name, language,
    (Scripts.user_prompt (Py.strftime_Ymd (utc_now w)) day_name language).
  split; [exact Hinfo |]. split; [reflexivity |].
  set (zeros := Text.shape (Scripts.user_prompt "0000-00-00" day_name language)).
  set (day_line := "Day: " +:+ day_name +:+ Py.nl).
  set (first_site := "Scheduled Language: " +:+ language +:+ Py.nl).
  set (second_site := "scheduled language (" +:+ language +:+ ").").
  assert (Hfacts :
    forallb Text.digit_free [day_name; language; day_line; first_site; second_site] = true
    /\ Text.occurrences "0000-00-00" zeros = 1%nat
    /\ Text.occurrences day_name zeros = 2%nat
    /\ Text.occurrences day_line zeros = 1%nat
    /\ Text.occurrences language zeros = Text.language_count language
    /\ Text.occurrences first_site zeros = 1%nat
    /\ Text.occurrences second_site zeros = 1%nat
    /\ Text.in_order Text.SECTION_NAMES zeros = true).
  { unfold zeros, day_line, first_site, second_site, Text.SCRIPTS_ROWS in *.
    cbn [In] in Hin.
    repeat (destruct Hin as [[= <- <-] | Hin];
            [vm_compute; repeat split; reflexivity |]).
    contradiction. }
  destruct Hfacts
    as (Hfree & Hdate & Hname & Hdayline & Hlang & Hsite1 & Hsite2 & Hsections).
  cbn [forallb] in Hfree.
  apply andb_true_iff in Hfree as [Hf1 Hfree]. apply andb_true_iff in Hfree as [Hf2 Hfree].
  apply andb_true_iff in Hfree as [Hf3 Hfree]. apply andb_true_iff in Hfree as [Hf4 Hfree].
  apply andb_true_iff in Hfree as [Hf5 _].
  destruct (user_prompt_counts (utc_now w) day_name language Hf1 Hf2)
    as ([Hone Hle] & _ & _ & Hs).
  fold zeros in Hle, Hs.
  rewrite (user_prompt_count _ _ _ day_name Hf1), (user_prompt_count _ _ _ language Hf2),
    (user_prompt_count _ _ _ day_line Hf3), (user_prompt_count _ _ _ first_site Hf4),
    (user_prompt_count _ _ _ second_site Hf5).
  fold zeros. rewrite Hs.
  split; [lia |]. do 6 (split; [assumption |]).
  destruct user_prompt_headings as (tail & Hprompt & Hheadings).
  rewrite Hprompt. do 2 apply in_order_app_r. apply Hheadings, Hin.
Qed.

End Prompt.

(* ===================================================================== *)
(** ** Publisher                                                          *)
(* ===================================================================== *)

Section Publisher.

Variable py_str : value -> string.
Variables (w : world) (cfg : Scripts.config) (headers : gmap string string).

Lemma github_graphql_posts (tr : trace) (query : string) (variables : value) :
  fst (Scripts.github_graphql py_str w headers query variables tr)
  = (tr ++ [Posted (Scripts.graphql_request headers query variables)])%list.
Proof.
  unfold Scripts.github_graphql, io_bind, post, lift.
  destruct (requests_post w tr _) as [resp | e]; [| reflexivity].
  destruct (Requests.raise_for_status resp) as [[] | e]; [| reflexivity].
  destruct (Requests.json_body resp) as [payload | e]; [| reflexivity].
  destruct (Py.contains "errors" payload) as [[|] | e]; try reflexivity.
  destruct (Py.getitem payload "errors"); reflexivity.
Qed.

(** X2. [fetch_repository_id] sends exactly one request, the repository
    query, whatever comes back: a trace without requests is one in which
    it did not run. *)
Lemma fetch_repository_id_posts (tr : trace) :
  posts (fst (Scripts.fetch_repository_id py_str w cfg headers tr))
  = (posts tr ++ [Scripts.graphql_request headers Scripts.REPOSITORY_QUERY
                    (Scripts.repository_variables cfg)])%list.
Proof.
  unfold Scripts.fetch_repository_id, io_bind.
  pose proof (github_graphql_posts tr Scripts.REPOSITORY_QUERY
                (Scripts.repository_variables cfg)) as Htr.
  destruct (Scripts.github_graphql py_str w headers _ _ tr) as [tr' result].
  cbn [fst] in Htr. subst tr'.
  assert (Hp : posts (tr ++ [Posted (Scripts.graphql_request headers
                 Scripts.REPOSITORY_QUERY (Scripts.repository_variables cfg))])%list
               = (posts tr ++ [Scripts.graphql_request headers Scripts.REPOSITORY_QUERY
                    (Scripts.repository_variables cfg)])%list).
  { unfold posts. rewrite omap_app. reflexivity. }
  unfold lift, ret, raise, Py.get.
  repeat first [exact Hp | progress cbv beta iota | split_match].
Qed.

(** X3. [create_discussion] sends exactly one request, the mutation,
    whatever comes back. *)
Lemma create_discussion_posts (tr : trace) (repo_id title body : string) :
  posts (fst (Scripts.create_discussion py_str w cfg headers repo_id title body tr))
  = (posts tr ++ [Scripts.graphql_request headers Scripts.DISCUSSION_MUTATION
                    (Scripts.discussion_variables cfg repo_id title body)])%list.
Proof.
  unfold Scripts.create_discussion, io_bind.
  pose proof (github_graphql_posts tr Scripts.DISCUSSION_MUTATION
                (Scripts.discussion_variables cfg repo_id title body)) as Htr.
  destruct (Scripts.github_graphql py_str w headers _ _ tr) as [tr' result].
  cbn [fst] in Htr. subst tr'.
  assert (Hp : posts (tr ++ [Posted (Scripts.graphql_request headers
                 Scripts.DISCUSSION_MUTATION
                 (Scripts.discussion_variables cfg repo_id title body))])%list
               = (posts tr ++ [Scripts.graphql_request headers
                    Scripts.DISCUSSION_MUTATION
                    (Scripts.discussion_variables cfg repo_id title body)])%list).
  { unfold posts. rewrite omap_app. reflexivity. }
  unfold lift, ret, raise, Py.get.
  repeat first [exact Hp | progress cbv beta iota | split_match].
Qed.

Lemma github_graphql_answered (tr : trace) (query : string) (variables : value)
    (payload : gmap string value) :
  Text.answers w tr (Scripts.graphql_request headers query variables) (VDict payload) ->
  Scripts.github_graphql py_str w headers query variables tr
  = ((tr ++ [Posted (Scripts.graphql_request headers query variables)])%list,
     match payload !! "errors" with
     | Some errors =>
         Raise (RuntimeError ("GitHub GraphQL error: " +:+ Scripts.fstring py_str errors))
     | None =>
         match payload !! "data" with
         | Some data => Ok data
         | None => Raise (KeyError (VStr "data"))
         end
     end).
Proof.
  intros (resp & Hpost & Hstatus & Hbody).
  unfold Scripts.github_graphql, io_bind, post, lift.
  rewrite Hpost, Hstatus, Hbody. cbn [Py.contains].
  destruct (payload !! "errors") as [errors |] eqn:He.
  - rewrite bool_decide_eq_true_2 by (eexists; reflexivity).
    unfold raise, Py.getitem. rewrite He. reflexivity.
  - rewrite bool_decide_eq_false_2 by (intros [x Hx]; discriminate).
    unfold Py.getitem. destruct (payload !! "data"); reflexivity.
Qed.

Lemma fetch_repository_id_answered (tr : trace) (payload data : gmap string value) :
  Text.answers w tr
    (Scripts.graphql_request headers Scripts.REPOSITORY_QUERY
       (Scripts.repository_variables cfg)) (VDict payload) ->
  payload !! "errors" = None ->
  payload !! "data" = Some (VDict data) ->
  match Text.nested_text (VDict data) ["repository"; "id"] with
  | Some repo_id =>
      snd (Scripts.fetch_repository_id py_str w cfg headers tr) = Ok repo_id
  | None =>
      exists msg,
        snd (Scripts.fetch_repository_id py_str w cfg headers tr)
        = Raise (RuntimeError msg)
        /\ Py.str_in "repository ID" msg = true
  end.
Proof.
  intros Hans He Hd.
  unfold Scripts.fetch_repository_id, io_bind.
  rewrite (github_graphql_answered _ _ _ _ Hans), He, Hd.
  unfold lift, Py.get, Text.nested_text, Text.nested.
  destruct (data !! "repository") as [[| | | | | | repo] |];
    try (eexists; split; reflexivity).
  cbn [default from_option id].
  destruct (repo !! "id") as [repo_id |] eqn:Hid.
  - rewrite bool_decide_eq_true_2 by (eexists; reflexivity).
    cbn [negb default from_option id].
    destruct repo_id as [| | | | s | |]; try (eexists; split; reflexivity).
    cbn [Py.truthy]. destruct (String.eqb s EmptyString).
    + eexists; split; reflexivity.
    + reflexivity.
  - rewrite bool_decide_eq_false_2 by (intros [x Hx]; discriminate).
    eexists; split; reflexivity.
Qed.

Lemma create_discussion_answered (tr : trace) (repo_id title body : string)
    (payload data : gmap string value) :
  Text.answers w tr
    (Scripts.graphql_request headers Scripts.DISCUSSION_MUTATION
       (Scripts.discussion_variables cfg repo_id title body)) (VDict payload) ->
  payload !! "errors" = None ->
  payload !! "data" = Some (VDict data) ->
  match Text.nested_text (VDict data) ["createDiscussion"; "discussion"; "url"] with
  | Some url =>
      snd (Scripts.create_discussion py_str w cfg headers repo_id title body tr) = Ok url
  | None =>
      exists msg,
        snd (Scripts.create_discussion py_str w cfg headers repo_id title body tr)
        = Raise (RuntimeError msg)
        /\ Py.str_in "discussion URL" msg = true
  end.
Proof.
  intros Hans He Hd.
  unfold Scripts.create_discussion, io_bind.
  rewrite (github_graphql_answered _ _ _ _ Hans), He, Hd.
  unfold lift, ret, Py.get, Text.nested_text, Text.nested.
  destruct (data !! "createDiscussion") as [[| | | | | | created] |];
    try (eexists; split; reflexivity).
  cbn [default from_option id].
  destruct (created !! "discussion") as [[| | | | | | discussion] |];
    try (eexists; split; reflexivity).
  cbn [default from_option id].
  destruct (discussion !! "url") as [url |] eqn:Hurl.
  - rewrite bool_decide_eq_true_2 by (eexists; reflexivity).
    cbn [negb default from_option id].
    destruct url as [| | | | s | |]; try (eexists; split; reflexivity).
    cbn [Py.truthy]. destruct (String.eqb s EmptyString).
    + eexists; split; reflexivity.
    + reflexivity.
  - rewrite bool_decide_eq_false_2 by (intros [x Hx]; discriminate).
    eexists; split; reflexivity.
Qed.

(** A body without [errors] whose [data] is absent or is not an object:
    [payload["data"]] raises in [github_graphql], or [data.get] raises in
    the caller, before any of its own checks. *)
Lemma fetch_repository_id_without_data (tr : trace) (payload : gmap string value) :
  Text.answers w tr
    (Scripts.graphql_request headers Scripts.REPOSITORY_QUERY
       (Scripts.repository_variables cfg)) (VDict payload) ->
  payload !! "errors" = None ->
  (payload !! "data" = None ->
   snd (Scripts.fetch_repository_id py_str w cfg headers tr)
   = Raise (KeyError (VStr "data")))
  /\ (forall data,
        payload !! "data" = Some data -> Text.is_object data = false ->
        snd (Scripts.fetch_repository_id py_str w cfg headers tr)
        = Raise (AttributeError (Py.type_name data) "get")).
Proof.
  intros Hans He. split; [intros Hd | intros data Hd Hobj];
    unfold Scripts.fetch_repository_id, io_bind;
    rewrite (github_graphql_answered _ _ _ _ Hans), He, Hd; [reflexivity |].
  destruct data; try discriminate Hobj; reflexivity.
Qed.

Lemma create_discussion_without_data (tr : trace) (repo_id title body : string)
    (payload : gmap string value) :
  Text.answers w tr
    (Scripts.graphql_request headers Scripts.DISCUSSION_MUTATION
       (Scripts.discussion_variables cfg repo_id title body)) (VDict payload) ->
  payload !! "errors" = None ->
  (payload !! "data" = None ->
   snd (Scripts.create_discussion py_str w cfg headers repo_id title body tr)
   = Raise (KeyError (VStr "data")))
  /\ (forall data,
        payload !! "data" = Some data -> Text.is_object data = false ->
        snd (Scripts.create_discussion py_str w cfg headers repo_id title body tr)
        = Raise (AttributeError (Py.type_name data) "get")).
Proof.
  intros Hans He. split; [intros Hd | intros data Hd Hobj];
    unfold Scripts.create_discussion, io_bind;
    rewrite (github_graphql_answered _ _ _ _ Hans), He, Hd; [reflexivity |].
  destruct data; try discriminate Hobj; reflexivity.
Qed.

(** The errors of a body without a [data] object name no field. *)
Lemma data_errors_name_no_field (data : value) :
  Text.names_no_field (KeyError (VStr "data")) = true
  /\ (Text.is_object data = false ->
      Text.names_no_field (AttributeError (Py.type_name data) "get") = true).
Proof.
  split; [reflexivity |]. destruct data; intros H; try discriminate H; reflexivity.
Qed.

(** C5, as the code has it.  For a response with a success status whose
    body is a JSON object: when the body has an [errors] member,
    [github_graphql] raises a [RuntimeError] whose message ends with the
    rendering of that member; when it has none and its [data] member is an
    object, [fetch_repository_id] and [create_discussion] return the
    non-empty string found at [repository.id] and at
    [createDiscussion.discussion.url], and raise a [RuntimeError] naming
    the repository ID or the discussion URL when there is none; when it
    has none and [data] is absent, both raise the [KeyError] of the key
    [data], and when [data] is anything but an object, both raise the
    [AttributeError] of [get] on a value of its type: two errors that are
    no [RuntimeError] and name neither the id nor the url. *)
Theorem graphql_failures_reported (tr : trace) (payload : gmap string value) :
  (forall query variables errors,
      Text.answers w tr (Scripts.graphql_request headers query variables) (VDict payload) ->
      payload !! "errors" = Some errors ->
      exists msg,
        snd (Scripts.github_graphql py_str w headers query variables tr)
        = Raise (RuntimeError msg)
        /\ msg = "GitHub GraphQL error: " +:+ Scripts.fstring py_str errors
        /\ Text.mentions (Scripts.fstring py_str errors) (RuntimeError msg) = true)
  /\ (forall data,
        Text.answers w tr
          (Scripts.graphql_request headers Scripts.REPOSITORY_QUERY
             (Scripts.repository_variables cfg)) (VDict payload) ->
        payload !! "errors" = None ->
        payload !! "data" = Some (VDict data) ->
        match Text.nested_text (VDict data) ["repository"; "id"] with
        | Some repo_id =>
            snd (Scripts.fetch_repository_id py_str w cfg headers tr) = Ok repo_id
        | None =>
            exists msg,
              snd (Scripts.fetch_repository_id py_str w cfg headers tr)
              = Raise (RuntimeError msg)
              /\ Py.str_in "repository ID" msg = true
        end)
  /\ (forall data repo_id title body,
        Text.answers w tr
          (Scripts.graphql_request headers Scripts.DISCUSSION_MUTATION
             (Scripts.discussion_variables cfg repo_id title body)) (VDict payload) ->
        payload !! "errors" = None ->
        payload !! "data" = Some (VDict data) ->
        match Text.nested_text (VDict data) ["createDiscussion"; "discussion"; "url"] with
        | Some url =>
            snd (Scripts.create_discussion py_str w cfg headers repo_id title body tr)
            = Ok url
        | None =>
            exists msg,
              snd (Scripts.create_discussion py_str w cfg headers repo_id title body tr)
              = Raise (RuntimeError msg)
              /\ Py.str_in "discussion URL" msg = true
        end)
  /\ (Text.answers w tr
        (Scripts.graphql_request headers Scripts.REPOSITORY_QUERY
           (Scripts.repository_variables cfg)) (VDict payload) ->
      payload !! "errors" = None ->
      (payload !! "data" = None ->
       snd (Scripts.fetch_repository_id py_str w cfg headers tr)
       = Raise (KeyError (VStr "data")))
      /\ (forall data,
            payload !! "data" = Some data -> Text.is_object data = false ->
            snd (Scripts.fetch_repository_id py_str w cfg headers tr)
            = Raise (AttributeError (Py.type_name data) "get")))
  /\ (forall repo_id title body,
        Text.answers w tr
          (Scripts.graphql_request headers Scripts.DISCUSSION_MUTATION
             (Scripts.discussion_variables cfg repo_id title body)) (VDict payload) ->
        payload !! "errors" = None ->
        (payload !! "data" = None ->
         snd (Scripts.create_discussion py_str w cfg headers repo_id title body tr)
         = Raise (KeyError (VStr "data")))
        /\ (forall data,
              payload !! "data" = Some data -> Text.is_object data = false ->
              snd (Scripts.create_discussion py_str w cfg headers repo_id title body tr)
              = Raise (AttributeError (Py.type_name data) "get")))
  /\ Text.names_no_field (KeyError (VStr "data")) = true
  /\ (forall data,
        Text.is_object data = false ->
        Text.names_no_field (AttributeError (Py.type_name data) "get") = true).
Proof.
  split; [| split; [| split; [| split; [| split]]]].
  - intros query variables errors Hans He.
    rewrite (github_graphql_answered _ _ _ _ Hans), He. cbn [snd].
    eexists. split; [reflexivity |]. split; [reflexivity |].
    unfold Text.mentions. cbn [exn_args existsb].
    rewrite str_in_suffix. reflexivity.
  - intros data. apply fetch_repository_id_answered.
  - intros data repo_id title body. apply create_discussion_answered.
  - apply fetch_repository_id_without_data.
  - intros repo_id title body. apply create_discussion_without_data.
  - split; [reflexivity |]. intros data. apply data_errors_name_no_field.
Qed.

End Publisher.

(* ===================================================================== *)
(** ** Orchestrator                                                       *)
(* ===================================================================== *)

Section Orchestrator.

Variable py_str : value -> string.
Variables (w : world) (cfg : Scripts.config).

Lemma day_info_fields (day_name language date : string) :
  let day_info : gmap string string :=
    {[ "day_name" := day_name; "language" := language; "date" := date ]} in
  Py.lookup_str day_info "day_name" = Ok day_name
  /\ Py.lookup_str day_info "language" = Ok language
  /\ Py.lookup_str day_info "date" = Ok date.
Proof.
  intros day_info. unfold Py.lookup_str, day_info.
  split; [| split]; reflexivity.
Qed.

Lemma build_user_prompt_resolved (day_name language date : string) :
  Scripts.build_user_prompt
    {[ "day_name" := day_name; "language" := language; "date" := date ]}
  = Ok (Scripts.user_prompt date day_name language).
Proof.
  destruct (day_info_fields day_name language date) as (Hd & Hl & Ht).
  unfold Scripts.build_user_prompt. rewrite Hl. cbn [bind]. rewrite Hd. cbn [bind].
  rewrite Ht. reflexivity.
Qed.

Lemma generate_programming_tip_trace (day_info : gmap string string) (prompt : string)
    (tr : trace) :
  Scripts.build_user_prompt day_info = Ok prompt ->
  fst (Scripts.generate_programming_tip w cfg day_info tr)
  = (tr ++ [Completion (Scripts.completion_request cfg prompt)])%list.
Proof.
  intros Hp. unfold Scripts.generate_programming_tip, io_bind, lift, create_completion.
  rewrite Hp.
  destruct (completions_create w tr _) as [response | e]; [| reflexivity].
  destruct (Groq.choices response) as [| first rest]; [reflexivity |].
  destruct (Groq.content (Groq.message first)) as [[| | | | text | |] |]; try reflexivity.
  cbn [default from_option id Py.truthy].
  destruct (negb (negb (String.eqb text EmptyString))); [reflexivity |].
  destruct (negb (negb (String.eqb (Py.strip text) EmptyString))); reflexivity.
Qed.

Lemma main_dry_run (day_name language date : string) :
  let day_info : gmap string string :=
    {[ "day_name" := day_name; "language" := language; "date" := date ]} in
  let started := [Printed (Scripts.announcement day_name date)] in
  let asked :=
    [Printed (Scripts.announcement day_name date);
     Completion (Scripts.completion_request cfg
                   (Scripts.user_prompt date day_name language))] in
  Scripts.DRY_RUN cfg = true ->
  Scripts.get_current_day_info w = Ok day_info ->
  Scripts.main py_str w cfg []
  = match snd (Scripts.generate_programming_tip w cfg day_info started) with
    | Ok post_body =>
        ((asked ++ [Printed "DRY_RUN enabled - not posting to GitHub.";
                    Printed "--- Generated Post ---";
                    Printed post_body])%list, Ok tt)
    | Raise e => (asked, Raise e)
    end.
Proof.
  intros day_info started asked Hdry Hinfo.
  destruct (day_info_fields day_name language date) as (Hd & Hl & Ht).
  fold day_info in Hd, Hl, Ht.
  pose proof (generate_programming_tip_trace day_info _ started
                (build_user_prompt_resolved day_name language date)) as Htr.
  unfold Scripts.main, io_bind, lift, print.
  rewrite Hinfo, Hd, Ht. cbn [app]. fold (Scripts.announcement day_name date). fold started.
  destruct (Scripts.generate_programming_tip w cfg day_info started) as [tr' [post_body | e]].
  - cbn [fst snd] in *. subst tr'. rewrite Hdry. reflexivity.
  - cbn [fst snd] in *. subst tr'. reflexivity.
Qed.

Lemma load_config_dry_run (environ : gmap string string) :
  Scripts.load_config environ = Ok cfg ->
  Scripts.DRY_RUN cfg
  = String.eqb (Py.lower (default "false" (environ !! "DRY_RUN"))) "true".
Proof.
  unfold Scripts.load_config.
  destruct (Scripts.require_env environ "GITHUB_TOKEN"); [| discriminate].
  destruct (Scripts.require_env environ "GROQ_API_KEY"); [| discriminate].
  destruct (Scripts.require_env environ "REPO_NAME"); [| discriminate]. cbn [bind].
  destruct (Scripts.repo_identity _ _); [| discriminate].
  destruct (Scripts.require_env environ "DISCUSSION_CATEGORY_ID"); [| discriminate].
  cbn [bind]. intros [= <-]. reflexivity.
Qed.

(** C2, as the code has it.  When the value of [DRY_RUN] lowers to "true",
    a run sends no request to the discussion service, so that neither
    [fetch_repository_id] nor [create_discussion] runs; and when the
    completion client returns a body, the run ends without an exception
    after printing four lines: the Scripts.announcement, the dry-run notice, the
    post separator and the body.  The title is not among them. *)
Theorem dry_run_prints_body_only (environ : gmap string string) (flag : string) :
  Scripts.load_config environ = Ok cfg ->
  environ !! "DRY_RUN" = Some flag ->
  Py.lower flag = "true" ->
  exists day_name language,
    let date := Py.strftime_Ymd (utc_now w) in
    let day_info : gmap string string :=
      {[ "day_name" := day_name; "language" := language; "date" := date ]} in
    Scripts.get_current_day_info w = Ok day_info
    /\ posts (fst (Scripts.run py_str environ w)) = []
    /\ forall post_body,
         snd (Scripts.generate_programming_tip w cfg day_info
                [Printed (Scripts.announcement day_name date)]) = Ok post_body ->
         snd (Scripts.run py_str environ w) = Ok tt
         /\ printed (fst (Scripts.run py_str environ w))
            = [Scripts.announcement day_name date;
               "DRY_RUN enabled - not posting to GitHub.";
               "--- Generated Post ---";
               post_body].
Proof.
  intros Hload Hflag Hlower.
  assert (Hdry : Scripts.DRY_RUN cfg = true).
  { rewrite (load_config_dry_run _ Hload), Hflag. cbn [default from_option id].
    rewrite Hlower. reflexivity. }
  destruct (scripts_resolves w) as (day_name & language & _ & Hinfo).
  exists day_name, language. cbn zeta. split; [exact Hinfo |].
  unfold Scripts.run. rewrite Hload.
  rewrite (main_dry_run day_name language _ Hdry Hinfo).
  destruct (snd (Scripts.generate_programming_tip w cfg _ _)) as [body | e].
  - split; [reflexivity |]. intros post_body [= <-]. split; reflexivity.
  - split; [reflexivity |]. intros post_body [=].
Qed.

End Orchestrator.

(* ===================================================================== *)
(** ** The statements at the sample inputs                               *)
(* ===================================================================== *)

Ltac sample_supplied := eexists; split; [reflexivity | discriminate].

(** C8 at work: a key that is set is returned, a key that is not set is
    named in the error. *)
Lemma require_env_contract_witness :
  Scripts.require_env Sample.slug_env "GITHUB_TOKEN" = Ok "ghp_token"
  /\ exists msg,
       Scripts.require_env Sample.slug_env "REPO_OWNER" = Raise (RuntimeError msg)
       /\ msg = "Missing required environment variable: " +:+ "REPO_OWNER"
       /\ Text.mentions "REPO_OWNER" (RuntimeError msg) = true.
Proof.
  split.
  - apply (proj1 (require_env_contract Sample.slug_env "GITHUB_TOKEN"));
      [reflexivity | discriminate].
  - apply (proj1 (proj2 (require_env_contract Sample.slug_env "REPO_OWNER"))).
    left. reflexivity.
Defined.

(** C4 at work: the slug, the bare name beside an owner, and the bare name
    without one. *)
Lemma repository_identity_loaded_witness :
  (exists cfg owner name,
      Scripts.load_config Sample.slug_env = Ok cfg
      /\ "acme/widgets" = owner +:+ "/" +:+ name /\ Py.str_in "/" owner = false
      /\ Scripts.REPO_OWNER cfg = owner /\ Scripts.REPO_NAME cfg = name)
  /\ (exists cfg,
        Scripts.load_config Sample.bare_env = Ok cfg
        /\ Scripts.REPO_OWNER cfg = "acme" /\ Scripts.REPO_NAME cfg = "widgets")
  /\ Scripts.load_config Sample.ownerless_env
     = Raise (RuntimeError
         "REPO_OWNER environment variable is required when REPO_NAME does not include the owner").
Proof.
  split; [| split].
  - apply (proj1 (repository_identity_loaded Sample.slug_env "acme/widgets"
                    ltac:(sample_supplied) ltac:(sample_supplied)
                    eq_refl ltac:(discriminate)));
      [reflexivity | sample_supplied].
  - apply (proj1 (proj2 (repository_identity_loaded Sample.bare_env "widgets"
                           ltac:(sample_supplied) ltac:(sample_supplied)
                           eq_refl ltac:(discriminate))));
      [reflexivity | sample_supplied | reflexivity | discriminate].
  - apply (proj1 (proj2 (proj2 (repository_identity_loaded Sample.ownerless_env "widgets"
                                  ltac:(sample_supplied) ltac:(sample_supplied)
                                  eq_refl ltac:(discriminate)))));
      [reflexivity | left; reflexivity].
Defined.

(** C10 at work on [a/b/c]. *)
Lemma repository_split_at_first_separator_witness :
  exists cfg,
    Scripts.load_config Sample.nested_env = Ok cfg
    /\ Scripts.REPO_OWNER cfg = "a" /\ Scripts.REPO_NAME cfg = "b/c".
Proof.
  apply (proj1 (repository_split_at_first_separator Sample.nested_env "a" "b/c"
                  ltac:(sample_supplied) ltac:(sample_supplied) ltac:(sample_supplied)
                  eq_refl eq_refl)).
Defined.

(** C3 at work: padded content comes back stripped, blank content raises. *)
Lemma completion_content_checked_witness :
  snd (Scripts.generate_programming_tip (Sample.world_of "  Hello " VNone)
         Sample.cfg Sample.day_info []) = Ok "Hello"
  /\ exists msg,
       snd (Scripts.generate_programming_tip (Sample.world_of "   " VNone)
              Sample.cfg Sample.day_info []) = Raise (RuntimeError msg).
Proof.
  split.
  - pose proof (completion_content_checked (Sample.world_of "  Hello " VNone)
                  Sample.cfg Sample.day_info []
                  (Scripts.user_prompt "2024-01-01" "Monday" "Python")
                  (Sample.completion "  Hello ") eq_refl eq_refl) as H.
    cbv zeta in H. destruct H as (_ & _ & _ & H).
    eapply (H _ [] "  Hello "); [reflexivity | reflexivity | vm_compute; discriminate].
  - pose proof (completion_content_checked (Sample.world_of "   " VNone)
                  Sample.cfg Sample.day_info []
                  (Scripts.user_prompt "2024-01-01" "Monday" "Python")
                  (Sample.completion "   ") eq_refl eq_refl) as H.
    cbv zeta in H. destruct H as (_ & _ & H & _).
    eapply (H _ [] "   "); reflexivity.
Defined.

(** C5 at work: an [errors] member is reported with its rendering, a
    repository object without an id is reported by name, and an empty
    body and a body whose [data] is a list are not. *)
Lemma graphql_failures_reported_witness :
  (exists msg,
      snd (Scripts.github_graphql Sample.render
             (Sample.world_of "" (VDict Sample.errors_payload))
             (Scripts.auth_headers Sample.cfg) Scripts.REPOSITORY_QUERY
             (Scripts.repository_variables Sample.cfg) [])
      = Raise (RuntimeError msg)
      /\ msg = "GitHub GraphQL error: " +:+ "[{'message': 'boom'}]"
      /\ Text.mentions "[{'message': 'boom'}]" (RuntimeError msg) = true)
  /\ (exists msg,
        snd (Scripts.fetch_repository_id Sample.render
               (Sample.world_of "" (VDict Sample.empty_repository_payload))
               Sample.cfg (Scripts.auth_headers Sample.cfg) [])
        = Raise (RuntimeError msg)
        /\ Py.str_in "repository ID" msg = true)
  /\ snd (Scripts.fetch_repository_id Sample.render
            (Sample.world_of "" (VDict ∅))
            Sample.cfg (Scripts.auth_headers Sample.cfg) [])
     = Raise (KeyError (VStr "data"))
  /\ snd (Scripts.create_discussion Sample.render
            (Sample.world_of "" (VDict {[ "data" := VList [] ]}))
            Sample.cfg (Scripts.auth_headers Sample.cfg) "R_123" "title" "body" [])
     = Raise (AttributeError "list" "get").
Proof.
  split; [| split; [| split]].
  - apply (proj1 (graphql_failures_reported Sample.render
                    (Sample.world_of "" (VDict Sample.errors_payload)) Sample.cfg
                    (Scripts.auth_headers Sample.cfg) [] Sample.errors_payload)
             Scripts.REPOSITORY_QUERY (Scripts.repository_variables Sample.cfg)
             (VList [VDict {[ "message" := VStr "boom" ]}]));
      [eexists; repeat split; reflexivity | reflexivity].
  - assert (Hanswer :
      Text.answers (Sample.world_of "" (VDict Sample.empty_repository_payload)) []
        (Scripts.graphql_request (Scripts.auth_headers Sample.cfg)
           Scripts.REPOSITORY_QUERY (Scripts.repository_variables Sample.cfg))
        (VDict Sample.empty_repository_payload))
      by (eexists; repeat split; reflexivity).
    pose proof (proj1 (proj2 (graphql_failures_reported Sample.render
                  (Sample.world_of "" (VDict Sample.empty_repository_payload))
                  Sample.cfg (Scripts.auth_headers Sample.cfg) []
                  Sample.empty_repository_payload))
                {[ "repository" := VDict ∅ ]} Hanswer eq_refl eq_refl) as H.
    assert (Hmissing :
      Text.nested_text (VDict {[ "repository" := VDict ∅ ]}) ["repository"; "id"] = None)
      by reflexivity.
    rewrite Hmissing in H. exact H.
  - assert (Hanswer :
      Text.answers (Sample.world_of "" (VDict ∅)) []
        (Scripts.graphql_request (Scripts.auth_headers Sample.cfg)
           Scripts.REPOSITORY_QUERY (Scripts.repository_variables Sample.cfg))
        (VDict ∅))
      by (eexists; repeat split; reflexivity).
    exact (proj1 (proj1 (proj2 (proj2 (proj2 (graphql_failures_reported Sample.render
                    (Sample.world_of "" (VDict ∅)) Sample.cfg
                    (Scripts.auth_headers Sample.cfg) [] ∅))))
                   Hanswer eq_refl) eq_refl).
  - assert (Hanswer :
      Text.answers (Sample.world_of "" (VDict {[ "data" := VList [] ]})) []
        (Scripts.graphql_request (Scripts.auth_headers Sample.cfg)
           Scripts.DISCUSSION_MUTATION
           (Scripts.discussion_variables Sample.cfg "R_123" "title" "body"))
        (VDict {[ "data" := VList [] ]}))
      by (eexists; repeat split; reflexivity).
    exact (proj2 (proj1 (proj2 (proj2 (proj2 (proj2
                    (graphql_failures_reported Sample.render
                       (Sample.world_of "" (VDict {[ "data" := VList [] ]})) Sample.cfg
                       (Scripts.auth_headers Sample.cfg) []
                       {[ "data" := VList [] ]})))))
                   "R_123" "title" "body" Hanswer eq_refl)
             (VList []) eq_refl eq_refl).
Defined.

(** C2 at work: a run with [DRY_RUN=TRUE]. *)
Lemma dry_run_prints_body_only_witness :
  let w := Sample.world_of "  Hello " (VDict Sample.null_data_payload) in
  exists day_name language,
    let date := Py.strftime_Ymd (utc_now w) in
    let day_info : gmap string string :=
      {[ "day_name" := day_name; "language" := language; "date" := date ]} in
    Scripts.get_current_day_info w = Ok day_info
    /\ posts (fst (Scripts.run Sample.render Sample.slug_env w)) = []
    /\ forall post_body,
         snd (Scripts.generate_programming_tip w Sample.cfg day_info
                [Printed (Scripts.announcement day_name date)]) = Ok post_body ->
         snd (Scripts.run Sample.render Sample.slug_env w) = Ok tt
         /\ printed (fst (Scripts.run Sample.render Sample.slug_env w))
            = [Scripts.announcement day_name date;
               "DRY_RUN enabled - not posting to GitHub.";
               "--- Generated Post ---";
               post_body].
Proof.
  apply (dry_run_prints_body_only Sample.render
           (Sample.world_of "  Hello " (VDict Sample.null_data_payload))
           Sample.cfg Sample.slug_env "TRUE");
    [vm_compute; reflexivity | reflexivity | reflexivity].
Defined.

(** C2 as it is worded fails on this run: with [DRY_RUN=TRUE] the run ends
    well and sends nothing, and prints the body, but no printed line holds
    the title. *)
Lemma dry_run_title_not_printed :
  let out :=
    Scripts.run Sample.render Sample.slug_env
      (Sample.world_of "  Hello " (VDict Sample.null_data_payload)) in
  Py.lower "TRUE" = "true"
  /\ snd out = Ok tt
  /\ posts (fst out) = []
  /\ printed (fst out)
     = ["Generating Daily Programming Insight for Monday (2024-01-01)";
        "DRY_RUN enabled - not posting to GitHub.";
        "--- Generated Post ---";
        "Hello"]
  /\ existsb (Py.str_in (Scripts.discussion_title "2024-01-01" "Monday"))
       (printed (fst out)) = false.
Proof. vm_compute. repeat split. Qed.

(** C5 as it is worded fails on the body [{"data": null}]: the nested id
    and url are missing, and both calls raise an [AttributeError] about
    [NoneType] and [get] that names neither field. *)
Lemma null_data_raises_attribute_error :
  let w := Sample.world_of "" (VDict Sample.null_data_payload) in
  let headers := Scripts.auth_headers Sample.cfg in
  Text.nested_text VNone ["repository"; "id"] = None
  /\ Text.nested_text VNone ["createDiscussion"; "discussion"; "url"] = None
  /\ snd (Scripts.fetch_repository_id Sample.render w Sample.cfg headers [])
     = Raise (AttributeError "NoneType" "get")
  /\ snd (Scripts.create_discussion Sample.render w Sample.cfg headers
            "R_123" "title" "body" [])
     = Raise (AttributeError "NoneType" "get")
  /\ map (fun field => Text.mentions field (AttributeError "NoneType" "get"))
       ["id"; "ID"; "repository"; "url"; "URL"; "discussion"]
     = [false; false; false; false; false; false].
Proof. vm_compute. repeat split. Qed.

(** C6 as it is worded fails on that Monday: the prompt holds the date
    once, but the day name twice and the language four times. *)
Lemma prompt_repeats_day_and_language :
  let prompt := Scripts.user_prompt "2024-01-01" "Monday" "Python" in
  Scripts.get_current_day_info (Sample.world_of "" VNone) = Ok Sample.day_info
  /\ Scripts.build_user_prompt Sample.day_info = Ok prompt
  /\ Text.occurrences "2024-01-01" prompt = 1%nat
  /\ Text.occurrences "Monday" prompt = 2%nat
  /\ Text.occurrences "Python" prompt = 4%nat.
Proof. vm_compute. repeat split. Qed.

(* ===================================================================== *)
(** ** More on the environment loader                                    *)
(* ===================================================================== *)

Section LoaderOrder.

Variable environ : gmap string string.

Lemma require_env_ok_inv (key v : string) :
  Scripts.require_env environ key = Ok v ->
  environ !! key = Some v /\ v <> EmptyString.
Proof.
  unfold Scripts.require_env.
  destruct (environ !! key) as [x |]; simpl; [| discriminate].
  destruct (String.eqb_spec x EmptyString); [discriminate |].
  intros [= ->]. split; [reflexivity | assumption].
Qed.

(** The unpacking of [split("/", 1)] cannot fail behind its guard:
    [repo_identity] raises nothing but the error about [REPO_OWNER]. *)
Lemma repo_identity_error (owner_env : option string) (raw : string) (e : exn) :
  Scripts.repo_identity owner_env raw = Raise e ->
  Py.str_in "/" raw = false
  /\ Py.if_truthy owner_env = None
  /\ e = RuntimeError
       "REPO_OWNER environment variable is required when REPO_NAME does not include the owner".
Proof.
  unfold Scripts.repo_identity.
  destruct (Py.str_in "/" raw) eqn:Hin.
  - destruct (str_in_char_split _ _ Hin) as (owner & name & -> & Hno).
    unfold Py.split1. rewrite cut_at_first by exact Hno. discriminate.
  - destruct (Py.if_truthy owner_env); [discriminate |].
    intros [= <-]. repeat split.
Qed.

Lemma if_truthy_supplied (key : string) :
  Text.supplied environ key <-> exists v, Py.if_truthy (environ !! key) = Some v.
Proof.
  split.
  - intros (v & -> & Hv). exists v. apply if_truthy_some, Hv.
  - unfold Text.supplied. intros (v & Hv).
    destruct (environ !! key) as [x |]; simpl in Hv; [| discriminate].
    destruct (String.eqb_spec x EmptyString); [discriminate |].
    injection Hv as <-. exists x. split; [reflexivity | assumption].
Qed.

(** X4. [load_config] succeeds exactly when the two tokens, the repository
    name and the category id are supplied and the owner can be told: the
    repository name holds a "/" or [REPO_OWNER] is supplied.  [GROQ_MODEL]
    and [DRY_RUN] are never required. *)
Theorem load_config_succeeds_iff :
  (exists cfg, Scripts.load_config environ = Ok cfg)
  <-> (Text.supplied environ "GITHUB_TOKEN"
       /\ Text.supplied environ "GROQ_API_KEY"
       /\ Text.supplied environ "DISCUSSION_CATEGORY_ID"
       /\ exists raw,
            environ !! "REPO_NAME" = Some raw /\ raw <> EmptyString
            /\ (Py.str_in "/" raw = true \/ Text.supplied environ "REPO_OWNER")).
Proof.
  split.
  - intros (cfg & H). unfold Scripts.load_config in H.
    destruct (Scripts.require_env environ "GITHUB_TOKEN") as [token |] eqn:Ht;
      [| discriminate].
    destruct (Scripts.require_env environ "GROQ_API_KEY") as [key |] eqn:Hk;
      [| discriminate].
    destruct (Scripts.require_env environ "REPO_NAME") as [raw |] eqn:Hr;
      [| discriminate]. cbn [bind] in H.
    destruct (Scripts.repo_identity (environ !! "REPO_OWNER") raw) as [identity |] eqn:Hi;
      [| discriminate].
    destruct (Scripts.require_env environ "DISCUSSION_CATEGORY_ID") as [category |] eqn:Hc;
      [| discriminate].
    apply require_env_ok_inv in Ht, Hk, Hr, Hc.
    destruct Ht, Hk, Hr, Hc.
    repeat split; try (eexists; split; eassumption).
    exists raw. repeat split; try assumption.
    unfold Scripts.repo_identity in Hi.
    destruct (Py.str_in "/" raw); [left; reflexivity | right].
    apply if_truthy_supplied.
    destruct (Py.if_truthy (environ !! "REPO_OWNER")) as [owner |]; [| discriminate].
    exists owner. reflexivity.
  - intros ((token & Ht & Ht') & (key & Hk & Hk') & (category & Hc & Hc')
            & raw & Hr & Hr' & Hid).
    assert (exists owner name,
               Scripts.repo_identity (environ !! "REPO_OWNER") raw = Ok (owner, name))
      as (owner & name & Hi).
    { destruct (Scripts.repo_identity (environ !! "REPO_OWNER") raw) as [[o n] | e] eqn:Hi;
        [exists o, n; reflexivity | exfalso].
      apply repo_identity_error in Hi as (Hno & Hnone & _).
      destruct Hid as [Hin | Hsup]; [congruence |].
      apply if_truthy_supplied in Hsup as (v & Hv). congruence. }
    destruct (load_config_identity environ token key raw category owner name)
      as (cfg & H & _); try assumption.
    exists cfg. exact H.
Qed.

(** X5. [load_config] reports the first check that fails, in the order the
    module runs them: [GITHUB_TOKEN], [GROQ_API_KEY], [REPO_NAME], the
    owner of a name without "/", [DISCUSSION_CATEGORY_ID]; so a missing
    owner is reported before a missing category id.  Whatever fails, the
    error is a [RuntimeError]: the unpacking of the split name never
    fails. *)
Theorem load_config_reports_first_failure :
  (Text.missing environ "GITHUB_TOKEN" ->
   Scripts.load_config environ = Raise (Text.missing_message "GITHUB_TOKEN"))
  /\ (Text.supplied environ "GITHUB_TOKEN" -> Text.missing environ "GROQ_API_KEY" ->
      Scripts.load_config environ = Raise (Text.missing_message "GROQ_API_KEY"))
  /\ (Text.supplied environ "GITHUB_TOKEN" -> Text.supplied environ "GROQ_API_KEY" ->
      Text.missing environ "REPO_NAME" ->
      Scripts.load_config environ = Raise (Text.missing_message "REPO_NAME"))
  /\ (Text.supplied environ "GITHUB_TOKEN" -> Text.supplied environ "GROQ_API_KEY" ->
      forall raw, environ !! "REPO_NAME" = Some raw -> raw <> EmptyString ->
      Py.str_in "/" raw = false -> Text.missing environ "REPO_OWNER" ->
      Scripts.load_config environ
      = Raise (RuntimeError
          "REPO_OWNER environment variable is required when REPO_NAME does not include the owner"))
  /\ (Text.supplied environ "GITHUB_TOKEN" -> Text.supplied environ "GROQ_API_KEY" ->
      forall raw, environ !! "REPO_NAME" = Some raw -> raw <> EmptyString ->
      Py.str_in "/" raw = true \/ Text.supplied environ "REPO_OWNER" ->
      Text.missing environ "DISCUSSION_CATEGORY_ID" ->
      Scripts.load_config environ = Raise (Text.missing_message "DISCUSSION_CATEGORY_ID"))
  /\ (forall e, Scripts.load_config environ = Raise e -> exists msg, e = RuntimeError msg).
Proof.
  unfold Text.missing_message, Text.missing, Scripts.load_config.
  split; [| split; [| split; [| split; [| split]]]].
  - intros H. rewrite (require_env_missing _ _ H). reflexivity.
  - intros (t & Ht & Ht') H.
    rewrite (require_env_supplied _ _ _ Ht Ht'), (require_env_missing _ _ H). reflexivity.
  - intros (t & Ht & Ht') (k & Hk & Hk') H.
    rewrite (require_env_supplied _ _ _ Ht Ht'), (require_env_supplied _ _ _ Hk Hk'),
      (require_env_missing _ _ H). reflexivity.
  - intros (t & Ht & Ht') (k & Hk & Hk') raw Hr Hr' Hno Ho.
    rewrite (require_env_supplied _ _ _ Ht Ht'), (require_env_supplied _ _ _ Hk Hk'),
      (require_env_supplied _ _ _ Hr Hr'). cbn [bind].
    unfold Scripts.repo_identity. rewrite Hno, (if_truthy_none _ Ho). reflexivity.
  - intros (t & Ht & Ht') (k & Hk & Hk') raw Hr Hr' Hid Hc.
    rewrite (require_env_supplied _ _ _ Ht Ht'), (require_env_supplied _ _ _ Hk Hk'),
      (require_env_supplied _ _ _ Hr Hr'). cbn [bind].
    destruct (Scripts.repo_identity (environ !! "REPO_OWNER") raw) as [identity | e] eqn:Hi.
    + cbn [bind]. rewrite (require_env_missing _ _ Hc). reflexivity.
    + exfalso. apply repo_identity_error in Hi as (Hno & Hnone & _).
      destruct Hid as [Hin | Hsup]; [congruence |].
      apply if_truthy_supplied in Hsup as (v & Hv). congruence.
  - intros e.
    destruct (Scripts.require_env environ "GITHUB_TOKEN") as [token |] eqn:Ht.
    2:{ unfold Scripts.require_env in Ht.
        destruct (Py.if_truthy _); [discriminate |]. injection Ht as <-.
        intros [= <-]. eexists; reflexivity. }
    destruct (Scripts.require_env environ "GROQ_API_KEY") as [key |] eqn:Hk.
    2:{ unfold Scripts.require_env in Hk.
        destruct (Py.if_truthy _); [discriminate |]. injection Hk as <-.
        intros [= <-]. eexists; reflexivity. }
    destruct (Scripts.require_env environ "REPO_NAME") as [raw |] eqn:Hr.
    2:{ unfold Scripts.require_env in Hr.
        destruct (Py.if_truthy _); [discriminate |]. injection Hr as <-.
        intros [= <-]. eexists; reflexivity. }
    cbn [bind].
    destruct (Scripts.repo_identity (environ !! "REPO_OWNER") raw) as [identity | e'] eqn:Hi.
    2:{ apply repo_identity_error in Hi as (_ & _ & ->).
        intros [= <-]. eexists; reflexivity. }
    cbn [bind].
    destruct (Scripts.require_env environ "DISCUSSION_CATEGORY_ID") as [cat |] eqn:Hc.
    2:{ unfold Scripts.require_env in Hc.
        destruct (Py.if_truthy _); [discriminate |]. injection Hc as <-.
        intros [= <-]. eexists; reflexivity. }
    discriminate.
Qed.

End LoaderOrder.

(* ===================================================================== *)
(** ** The dry-run flag                                                  *)
(* ===================================================================== *)

Section DryRunFlag.

Ltac by_character c :=
  destruct c as [[] [] [] [] [] [] [] []]; vm_compute;
  (split; [intros H; first [discriminate H | left; reflexivity | right; reflexivity]
          | intros [H | H]; first [discriminate H | reflexivity]]).

Lemma lower_char_t (c : ascii) : Py.lower_char c = "t"%char <-> Text.either_case "t" "T" c.
Proof. by_character c. Qed.

Lemma lower_char_r (c : ascii) : Py.lower_char c = "r"%char <-> Text.either_case "r" "R" c.
Proof. by_character c. Qed.

Lemma lower_char_u (c : ascii) : Py.lower_char c = "u"%char <-> Text.either_case "u" "U" c.
Proof. by_character c. Qed.

Lemma lower_char_e (c : ascii) : Py.lower_char c = "e"%char <-> Text.either_case "e" "E" c.
Proof. by_character c. Qed.

Lemma lower_true_iff (v : string) : Py.lower v = "true" <-> Text.spells_true v.
Proof.
  split.
  - destruct v as [| t [| r [| u [| e [| x v]]]]]; try discriminate.
    cbn [Py.lower]. intros [= Ht Hr Hu He].
    exists t, r, u, e. split; [reflexivity |].
    repeat split; [apply lower_char_t | apply lower_char_r
                   | apply lower_char_u | apply lower_char_e]; assumption.
  - intros (t & r & u & e & -> & Ht & Hr & Hu & He).
    apply lower_char_t in Ht. apply lower_char_r in Hr.
    apply lower_char_u in Hu. apply lower_char_e in He.
    cbn [Py.lower]. rewrite Ht, Hr, Hu, He. reflexivity.
Qed.

(** X6. A loaded configuration is a dry run exactly when [DRY_RUN] is set
    to one of the sixteen spellings of "true" (each letter in either
    case); unset, empty or set to anything else, the run publishes. *)
Theorem dry_run_flag_spelling (environ : gmap string string) (cfg : Scripts.config) :
  Scripts.load_config environ = Ok cfg ->
  (Scripts.DRY_RUN cfg = true
   <-> exists v, environ !! "DRY_RUN" = Some v /\ Text.spells_true v)
  /\ (environ !! "DRY_RUN" = None -> Scripts.DRY_RUN cfg = false).
Proof.
  intros Hload. rewrite (load_config_dry_run cfg environ Hload).
  split; [split |].
  - intros H. apply String.eqb_eq in H.
    destruct (environ !! "DRY_RUN") as [v |]; cbn [default from_option id] in H.
    + exists v. split; [reflexivity | apply lower_true_iff, H].
    + discriminate H.
  - intros (v & -> & Hv). cbn [default from_option id].
    apply lower_true_iff in Hv. rewrite Hv. reflexivity.
  - intros ->. reflexivity.
Qed.

End DryRunFlag.

(* ===================================================================== *)
(** ** [strip] and the body the completion client returns                *)
(* ===================================================================== *)

Section Strip.

Lemma whitespace_nonempty (w : string) :
  In w Py.whitespace -> String.length w <> 0%nat.
Proof.
  assert (H : forallb (fun w => negb (Nat.eqb (String.length w) 0)) Py.whitespace = true)
    by reflexivity.
  rewrite forallb_forall in H. intros Hin. specialize (H w Hin).
  destruct (Nat.eqb_spec (String.length w) 0); [discriminate | assumption].
Qed.

Lemma leading_space_zero (s : string) :
  Py.leading_space s = 0%nat
  <-> forall w, In w Py.whitespace -> String.prefix w s = false.
Proof.
  unfold Py.leading_space. split.
  - destruct (find _ Py.whitespace) as [w |] eqn:Hf.
    + apply find_some in Hf as [Hin _]. intros H.
      destruct (whitespace_nonempty w Hin H).
    + intros _ w Hin. exact (find_none _ _ Hf w Hin).
  - intros H. destruct (find _ Py.whitespace) as [w |] eqn:Hf; [| reflexivity].
    apply find_some in Hf as [Hin Hp]. specialize (H w Hin). cbn beta in Hp. congruence.
Qed.

Lemma trailing_space_zero (s : string) :
  Py.trailing_space s = 0%nat
  <-> forall w, In w Py.whitespace -> Py.is_suffix w s = false.
Proof.
  unfold Py.trailing_space. split.
  - destruct (find _ Py.whitespace) as [w |] eqn:Hf.
    + apply find_some in Hf as [Hin _]. intros H.
      destruct (whitespace_nonempty w Hin H).
    + intros _ w Hin. exact (find_none _ _ Hf w Hin).
  - intros H. destruct (find _ Py.whitespace) as [w |] eqn:Hf; [| reflexivity].
    apply find_some in Hf as [Hin Hp]. specialize (H w Hin). cbn beta in Hp. congruence.
Qed.

Lemma length_skip (n : nat) (s : string) :
  String.length (Py.skip n s) = (String.length s - n)%nat.
Proof.
  revert s. induction n as [| n IH]; intros [| c s]; cbn; try reflexivity; auto with arith.
Qed.

Lemma length_substring_start (n : nat) (s : string) :
  (String.length (String.substring 0 n s) <= n)%nat.
Proof.
  revert s. induction n as [| n IH]; intros [| c s]; cbn; try lia.
  specialize (IH s). lia.
Qed.

Lemma prefix_of_substring_start (w : string) (n : nat) (s : string) :
  String.prefix w (String.substring 0 n s) = true -> String.prefix w s = true.
Proof.
  revert n s. induction w as [| a w IH]; intros n s H; [destruct s; reflexivity |].
  destruct s as [| c s]; [destruct n; discriminate H |].
  destruct n as [| n]; [discriminate H |].
  cbn in H |- *. destruct (ascii_dec a c); [eapply IH, H | discriminate H].
Qed.

Lemma lstrip_loop_clean (fuel : nat) (s : string) :
  (String.length s <= fuel)%nat -> Py.leading_space (Py.lstrip_loop fuel s) = 0%nat.
Proof.
  revert s. induction fuel as [| fuel IH]; intros s Hlen.
  - destruct s; [reflexivity | cbn in Hlen; lia].
  - cbn [Py.lstrip_loop]. destruct (Py.leading_space s) as [| k] eqn:E; [exact E |].
    apply IH. rewrite length_skip. lia.
Qed.

Lemma rstrip_loop_clean (fuel : nat) (s : string) :
  (String.length s <= fuel)%nat -> Py.trailing_space (Py.rstrip_loop fuel s) = 0%nat.
Proof.
  revert s. induction fuel as [| fuel IH]; intros s Hlen.
  - destruct s; [reflexivity | cbn in Hlen; lia].
  - cbn [Py.rstrip_loop]. destruct (Py.trailing_space s) as [| k] eqn:E; [exact E |].
    apply IH.
    pose proof (length_substring_start (String.length s - S k) s). lia.
Qed.

Lemma rstrip_loop_keeps_start (fuel : nat) (s : string) :
  Py.leading_space s = 0%nat -> Py.leading_space (Py.rstrip_loop fuel s) = 0%nat.
Proof.
  revert s. induction fuel as [| fuel IH]; intros s H; [exact H |].
  cbn [Py.rstrip_loop]. destruct (Py.trailing_space s) as [| k]; [exact H |].
  apply IH. apply leading_space_zero. intros w Hin.
  destruct (String.prefix w (String.substring 0 _ s)) eqn:Hp; [| reflexivity].
  apply prefix_of_substring_start in Hp.
  rewrite (proj1 (leading_space_zero s) H w Hin) in Hp. discriminate.
Qed.

Lemma strip_clean (s : string) :
  Py.leading_space (Py.strip s) = 0%nat /\ Py.trailing_space (Py.strip s) = 0%nat.
Proof.
  unfold Py.strip, Py.rstrip, Py.lstrip. split.
  - apply rstrip_loop_keeps_start, lstrip_loop_clean. lia.
  - apply rstrip_loop_clean. lia.
Qed.

Lemma strip_of_clean (s : string) :
  Py.leading_space s = 0%nat -> Py.trailing_space s = 0%nat -> Py.strip s = s.
Proof.
  intros Hl Ht. unfold Py.strip, Py.rstrip, Py.lstrip.
  assert (Hs : Py.lstrip_loop (String.length s) s = s).
  { destruct (String.length s); cbn [Py.lstrip_loop]; [reflexivity |].
    rewrite Hl. reflexivity. }
  rewrite Hs. destruct (String.length s); cbn [Py.rstrip_loop]; [reflexivity |].
  rewrite Ht. reflexivity.
Qed.

End Strip.

Section CompletionMore.

Variables (w : world) (cfg : Scripts.config) (day_info : gmap string string).
Variable tr : trace.

(** What a returned body comes from. *)
Lemma generate_programming_tip_ok_inv (body : string) :
  snd (Scripts.generate_programming_tip w cfg day_info tr) = Ok body ->
  exists prompt response first rest text,
    Scripts.build_user_prompt day_info = Ok prompt
    /\ completions_create w tr (Scripts.completion_request cfg prompt) = Ok response
    /\ Groq.choices response = first :: rest
    /\ Groq.content (Groq.message first) = Some (VStr text)
    /\ body = Py.strip text /\ body <> EmptyString.
Proof.
  unfold Scripts.generate_programming_tip, io_bind, lift, create_completion.
  destruct (Scripts.build_user_prompt day_info) as [prompt |]; [| discriminate].
  destruct (completions_create w tr _) as [response |] eqn:Hr; [| discriminate].
  destruct (Groq.choices response) as [| first rest] eqn:Hc; [discriminate |].
  destruct (Groq.content (Groq.message first)) as [[| | | | text | |] |] eqn:Ht;
    try discriminate.
  cbn [default from_option id Py.truthy].
  destruct (String.eqb text EmptyString); [discriminate |]. cbn [negb].
  destruct (String.eqb_spec (Py.strip text) EmptyString) as [| Hne]; [discriminate |].
  cbn [negb ret snd]. intros [= <-].
  exists prompt, response, first, rest, text. repeat split; try assumption; reflexivity.
Qed.

(** X7. Whatever the service answers, a body that
    [generate_programming_tip] returns is not empty and neither starts nor
    ends with a white-space character: stripping it again changes
    nothing. *)
Theorem generated_body_is_stripped (body : string) :
  snd (Scripts.generate_programming_tip w cfg day_info tr) = Ok body ->
  body <> EmptyString
  /\ Py.leading_space body = 0%nat
  /\ Py.trailing_space body = 0%nat
  /\ Py.strip body = body.
Proof.
  intros H.
  destruct (generate_programming_tip_ok_inv body H)
    as (prompt & response & first & rest & text & _ & _ & _ & _ & -> & Hne).
  destruct (strip_clean text) as [Hl Ht].
  repeat split; try assumption. apply strip_of_clean; assumption.
Qed.

(** X8. [generate_programming_tip] calls [client.chat.completions.create]
    at most once: when the prompt cannot be built it raises the [KeyError]
    without calling; otherwise it makes one call, recorded as one
    [Completion] event, with the configured model and the system and user
    prompts, and an exception that comes out of that call comes out of the
    function unchanged: the function does not call again.  What the
    client does on the wire inside that one call, its own retries
    included, is behind [completions_create] and not modelled. *)
Theorem completion_called_once :
  (forall e, Scripts.build_user_prompt day_info = Raise e ->
             Scripts.generate_programming_tip w cfg day_info tr = (tr, Raise e))
  /\ (forall prompt,
        Scripts.build_user_prompt day_info = Ok prompt ->
        let req := Scripts.completion_request cfg prompt in
        fst (Scripts.generate_programming_tip w cfg day_info tr)
        = (tr ++ [Completion req])%list
        /\ Groq.model req = Scripts.MODEL_NAME cfg
        /\ map (fun m : gmap string string => (m !! "role", m !! "content"))
             (Groq.messages req)
           = [(Some "system", Some Scripts.SYSTEM_PROMPT); (Some "user", Some prompt)]
        /\ forall e, completions_create w tr req = Raise e ->
                     snd (Scripts.generate_programming_tip w cfg day_info tr) = Raise e).
Proof.
  split.
  - intros e He. unfold Scripts.generate_programming_tip, io_bind, lift.
    rewrite He. reflexivity.
  - intros prompt Hp req. split; [| split; [| split]].
    + apply generate_programming_tip_trace, Hp.
    + reflexivity.
    + reflexivity.
    + intros e He.
      unfold Scripts.generate_programming_tip, io_bind, lift, create_completion.
      rewrite Hp. fold req. rewrite He. reflexivity.
Qed.

End CompletionMore.

(* ===================================================================== *)
(** ** More on the publisher                                             *)
(* ===================================================================== *)

Section PublisherMore.

Variable py_str : value -> string.
Variables (w : world) (cfg : Scripts.config) (headers : gmap string string).

Lemma raise_for_status_ok (resp : Requests.response) :
  Requests.raise_for_status resp = Ok tt
  <-> ~ (400 <= Requests.status_code resp < 600).
Proof.
  unfold Requests.raise_for_status.
  destruct (Z.leb_spec 400 (Requests.status_code resp)) as [Hlo | Hlo];
    destruct (Z.ltb_spec (Requests.status_code resp) 600) as [Hhi | Hhi]; cbn [andb];
    split; intros Hs; try discriminate; try reflexivity; try lia.
Qed.

Lemma github_graphql_ok_inv (tr : trace) (query : string) (variables data : value) :
  snd (Scripts.github_graphql py_str w headers query variables tr) = Ok data ->
  exists payload,
    Text.answers w tr (Scripts.graphql_request headers query variables) (VDict payload)
    /\ payload !! "errors" = None /\ payload !! "data" = Some data.
Proof.
  unfold Scripts.github_graphql, io_bind, post, lift, Text.answers.
  destruct (requests_post w tr _) as [resp |] eqn:Hp; [| discriminate].
  destruct (Requests.raise_for_status resp) as [[] |] eqn:Hs; [| discriminate].
  destruct (Requests.json_body resp) as [payload |] eqn:Hb; [| discriminate].
  destruct payload as [| | | | s | l | payload]; try discriminate.
  - cbn [Py.contains]. destruct (Py.str_in "errors" s); discriminate.
  - cbn [Py.contains]. destruct (existsb _ l); discriminate.
  - cbn [Py.contains Py.getitem].
    destruct (payload !! "errors") as [errors |] eqn:He.
    + rewrite bool_decide_eq_true_2 by (eexists; reflexivity). discriminate.
    + rewrite bool_decide_eq_false_2 by (intros [x Hx]; discriminate).
      destruct (payload !! "data") as [d |] eqn:Hd; [| discriminate].
      cbn [snd]. intros [= <-]. exists payload.
      split; [exists resp; repeat split; assumption |]. split; assumption.
Qed.

(** X9. [github_graphql] returns exactly when the request is answered with
    a status outside 400..599 and a body that decodes to an object
    without an [errors] member and with a [data] member, which is what it
    returns.  A body with both members is an error. *)
Theorem github_graphql_returns_iff (tr : trace) (query : string)
    (variables data : value) :
  snd (Scripts.github_graphql py_str w headers query variables tr) = Ok data
  <-> exists resp payload,
        requests_post w tr (Scripts.graphql_request headers query variables) = Ok resp
        /\ ~ (400 <= Requests.status_code resp < 600)
        /\ Requests.json_body resp = Ok (VDict payload)
        /\ payload !! "errors" = None
        /\ payload !! "data" = Some data.
Proof.
  split.
  - intros H. apply github_graphql_ok_inv in H
      as (payload & (resp & Hp & Hs & Hb) & He & Hd).
    exists resp, payload. repeat split; try assumption.
    apply raise_for_status_ok, Hs.
  - intros (resp & payload & Hp & Hs & Hb & He & Hd).
    rewrite (github_graphql_answered py_str w headers tr query variables payload).
    + rewrite He, Hd. reflexivity.
    + exists resp. repeat split; try assumption. apply raise_for_status_ok, Hs.
Qed.

(** X10. How [github_graphql] fails short of the [errors] check: an
    exception of the transport comes out unchanged; a status in 400..599
    raises [HTTPError] whatever the body holds; a body that does not
    decode raises what the decoder raised; a body that is not an object
    raises [TypeError]; an object with neither [errors] nor [data] raises
    [KeyError] for [data]. *)
Theorem github_graphql_failures (tr : trace) (query : string) (variables : value) :
  let req := Scripts.graphql_request headers query variables in
  let outcome := snd (Scripts.github_graphql py_str w headers query variables tr) in
  (forall e, requests_post w tr req = Raise e -> outcome = Raise e)
  /\ (forall resp, requests_post w tr req = Ok resp ->
        (400 <= Requests.status_code resp < 600 ->
         outcome = Raise (HTTPError (Requests.status_code resp)))
        /\ (~ (400 <= Requests.status_code resp < 600) ->
            (forall e, Requests.json_body resp = Raise e -> outcome = Raise e)
            /\ (forall payload,
                  Requests.json_body resp = Ok payload ->
                  (forall fields, payload <> VDict fields) ->
                  exists msg, outcome = Raise (TypeError msg))
            /\ (forall fields,
                  Requests.json_body resp = Ok (VDict fields) ->
                  fields !! "errors" = None -> fields !! "data" = None ->
                  outcome = Raise (KeyError (VStr "data"))))).
Proof.
  intros req outcome. unfold outcome, Scripts.github_graphql, io_bind, post, lift.
  fold req. split.
  - intros e ->. reflexivity.
  - intros resp ->. split.
    + intros Hs. unfold Requests.raise_for_status.
      destruct (Z.leb_spec 400 (Requests.status_code resp)); [| lia].
      destruct (Z.ltb_spec (Requests.status_code resp) 600); [| lia]. reflexivity.
    + intros Hs. apply raise_for_status_ok in Hs. rewrite Hs.
      split; [| split].
      * intros e ->. reflexivity.
      * intros payload -> Hshape.
        destruct payload as [| | | | s | l | fields]; cbn [Py.contains Py.type_name];
          try (eexists; reflexivity).
        -- destruct (Py.str_in "errors" s); eexists; reflexivity.
        -- destruct (existsb _ l); eexists; reflexivity.
        -- destruct (Hshape fields). reflexivity.
      * intros fields -> He Hd. cbn [Py.contains Py.getitem].
        rewrite He, Hd.
        rewrite bool_decide_eq_false_2 by (intros [x Hx]; discriminate). reflexivity.
Qed.

Lemma fetch_repository_id_ok_inv (tr : trace) (repo_id : string) :
  snd (Scripts.fetch_repository_id py_str w cfg headers tr) = Ok repo_id ->
  repo_id <> EmptyString
  /\ exists payload data,
       Text.answers w tr
         (Scripts.graphql_request headers Scripts.REPOSITORY_QUERY
            (Scripts.repository_variables cfg)) (VDict payload)
       /\ payload !! "errors" = None
       /\ payload !! "data" = Some data
       /\ Text.nested data ["repository"; "id"] = Some (VStr repo_id).
Proof.
  intros H.
  destruct (snd (Scripts.github_graphql py_str w headers Scripts.REPOSITORY_QUERY
                   (Scripts.repository_variables cfg) tr)) as [data | e] eqn:Hg.
  2:{ unfold Scripts.fetch_repository_id, io_bind in H.
      destruct (Scripts.github_graphql py_str w headers _ _ tr) as [tr' [d | e']];
        cbn [snd] in Hg; [discriminate Hg | discriminate H]. }
  destruct (github_graphql_ok_inv _ _ _ _ Hg) as (payload & Hans & He & Hd).
  destruct data as [| | | | | | fields].
  1-6: unfold Scripts.fetch_repository_id, io_bind in H;
       destruct (Scripts.github_graphql py_str w headers _ _ tr) as [tr' [d | e']];
       cbn [snd] in Hg; [injection Hg as -> | discriminate Hg]; discriminate H.
  pose proof (fetch_repository_id_answered py_str w cfg headers tr payload fields
                Hans He Hd) as Hf.
  unfold Text.nested_text in Hf.
  destruct (Text.nested (VDict fields) ["repository"; "id"]) as [[| | | | s | |] |] eqn:Hn;
    try (destruct Hf as (msg & Hf & _); rewrite Hf in H; discriminate H).
  destruct (String.eqb_spec s EmptyString) as [| Hne];
    [destruct Hf as (msg & Hf & _); rewrite Hf in H; discriminate H |].
  rewrite Hf in H. injection H as <-.
  split; [assumption |]. exists payload, (VDict fields). repeat split; assumption.
Qed.

Lemma create_discussion_ok_inv (tr : trace) (repo_id title body url : string) :
  snd (Scripts.create_discussion py_str w cfg headers repo_id title body tr) = Ok url ->
  url <> EmptyString
  /\ exists payload data,
       Text.answers w tr
         (Scripts.graphql_request headers Scripts.DISCUSSION_MUTATION
            (Scripts.discussion_variables cfg repo_id title body)) (VDict payload)
       /\ payload !! "errors" = None
       /\ payload !! "data" = Some data
       /\ Text.nested data ["createDiscussion"; "discussion"; "url"] = Some (VStr url).
Proof.
  intros H.
  destruct (snd (Scripts.github_graphql py_str w headers Scripts.DISCUSSION_MUTATION
                   (Scripts.discussion_variables cfg repo_id title body) tr))
    as [data | e] eqn:Hg.
  2:{ unfold Scripts.create_discussion, io_bind in H.
      destruct (Scripts.github_graphql py_str w headers _ _ tr) as [tr' [d | e']];
        cbn [snd] in Hg; [discriminate Hg | discriminate H]. }
  destruct (github_graphql_ok_inv _ _ _ _ Hg) as (payload & Hans & He & Hd).
  destruct data as [| | | | | | fields].
  1-6: unfold Scripts.create_discussion, io_bind in H;
       destruct (Scripts.github_graphql py_str w headers _ _ tr) as [tr' [d | e']];
       cbn [snd] in Hg; [injection Hg as -> | discriminate Hg]; discriminate H.
  pose proof (create_discussion_answered py_str w cfg headers tr repo_id title body
                payload fields Hans He Hd) as Hf.
  unfold Text.nested_text in Hf.
  destruct (Text.nested (VDict fields) ["createDiscussion"; "discussion"; "url"])
    as [[| | | | s | |] |] eqn:Hn;
    try (destruct Hf as (msg & Hf & _); rewrite Hf in H; discriminate H).
  destruct (String.eqb_spec s EmptyString) as [| Hne];
    [destruct Hf as (msg & Hf & _); rewrite Hf in H; discriminate H |].
  rewrite Hf in H. injection H as <-.
  split; [assumption |]. exists payload, (VDict fields). repeat split; assumption.
Qed.

(** X11. Whatever the service answers, what the two publisher calls return
    is a non-empty string read from the answer: the id at
    [data.repository.id] of an answer without [errors], the URL at
    [data.createDiscussion.discussion.url] of one. *)
Theorem publisher_results_are_answers (tr : trace) (repo_id title body result : string) :
  (snd (Scripts.fetch_repository_id py_str w cfg headers tr) = Ok result ->
   result <> EmptyString
   /\ exists payload data,
        Text.answers w tr
          (Scripts.graphql_request headers Scripts.REPOSITORY_QUERY
             (Scripts.repository_variables cfg)) (VDict payload)
        /\ payload !! "errors" = None
        /\ payload !! "data" = Some data
        /\ Text.nested data ["repository"; "id"] = Some (VStr result))
  /\ (snd (Scripts.create_discussion py_str w cfg headers repo_id title body tr)
      = Ok result ->
      result <> EmptyString
      /\ exists payload data,
           Text.answers w tr
             (Scripts.graphql_request headers Scripts.DISCUSSION_MUTATION
                (Scripts.discussion_variables cfg repo_id title body)) (VDict payload)
           /\ payload !! "errors" = None
           /\ payload !! "data" = Some data
           /\ Text.nested data ["createDiscussion"; "discussion"; "url"]
              = Some (VStr result)).
Proof.
  split; intros H.
  - destruct (fetch_repository_id_ok_inv tr result H) as (Hne & payload & data & Hrest).
    split; [exact Hne |]. exists payload, data. exact Hrest.
  - destruct (create_discussion_ok_inv tr repo_id title body result H)
      as (Hne & payload & data & Hrest).
    split; [exact Hne |]. exists payload, data. exact Hrest.
Qed.

End PublisherMore.

(* ===================================================================== *)
(** ** More on the orchestrator                                          *)
(* ===================================================================== *)

Section OrchestratorMore.

Variable py_str : value -> string.
Variables (w : world) (cfg : Scripts.config).

Lemma fetch_repository_id_trace (headers : gmap string string) (tr : trace) :
  fst (Scripts.fetch_repository_id py_str w cfg headers tr)
  = (tr ++ [Posted (Scripts.graphql_request headers Scripts.REPOSITORY_QUERY
                      (Scripts.repository_variables cfg))])%list.
Proof.
  unfold Scripts.fetch_repository_id, io_bind.
  pose proof (github_graphql_posts py_str w headers tr Scripts.REPOSITORY_QUERY
                (Scripts.repository_variables cfg)) as Htr.
  destruct (Scripts.github_graphql py_str w headers _ _ tr) as [tr' result].
  cbn [fst] in Htr. subst tr'.
  unfold lift, ret, raise, Py.get.
  repeat first [reflexivity | progress cbv beta iota | split_match].
Qed.

Lemma create_discussion_trace (headers : gmap string string) (tr : trace)
    (repo_id title body : string) :
  fst (Scripts.create_discussion py_str w cfg headers repo_id title body tr)
  = (tr ++ [Posted (Scripts.graphql_request headers Scripts.DISCUSSION_MUTATION
                      (Scripts.discussion_variables cfg repo_id title body))])%list.
Proof.
  unfold Scripts.create_discussion, io_bind.
  pose proof (github_graphql_posts py_str w headers tr Scripts.DISCUSSION_MUTATION
                (Scripts.discussion_variables cfg repo_id title body)) as Htr.
  destruct (Scripts.github_graphql py_str w headers _ _ tr) as [tr' result].
  cbn [fst] in Htr. subst tr'.
  unfold lift, ret, raise, Py.get.
  repeat first [reflexivity | progress cbv beta iota | split_match].
Qed.

(** A run that publishes, step by step. *)
Lemma main_publishing (day_name language date : string) :
  let day_info : gmap string string :=
    {[ "day_name" := day_name; "language" := language; "date" := date ]} in
  let headers := Scripts.auth_headers cfg in
  let title := Scripts.discussion_title date day_name in
  let query :=
    Scripts.graphql_request headers Scripts.REPOSITORY_QUERY
      (Scripts.repository_variables cfg) in
  let mutation repo_id body :=
    Scripts.graphql_request headers Scripts.DISCUSSION_MUTATION
      (Scripts.discussion_variables cfg repo_id title body) in
  let started := [Printed (Scripts.announcement day_name date)] in
  let asked :=
    [Printed (Scripts.announcement day_name date);
     Completion (Scripts.completion_request cfg
                   (Scripts.user_prompt date day_name language))] in
  Scripts.DRY_RUN cfg = false ->
  Scripts.get_current_day_info w = Ok day_info ->
  Scripts.main py_str w cfg []
  = match snd (Scripts.generate_programming_tip w cfg day_info started) with
    | Raise e => (asked, Raise e)
    | Ok body =>
        match snd (Scripts.fetch_repository_id py_str w cfg headers asked) with
        | Raise e => ((asked ++ [Posted query])%list, Raise e)
        | Ok repo_id =>
            match snd (Scripts.create_discussion py_str w cfg headers repo_id title body
                         (asked ++ [Posted query])%list) with
            | Raise e =>
                ((asked ++ [Posted query; Posted (mutation repo_id body)])%list, Raise e)
            | Ok url =>
                ((asked ++ [Posted query; Posted (mutation repo_id body);
                            Printed ("Discussion created successfully: " +:+ url)])%list,
                 Ok tt)
            end
        end
    end.
Proof.
  intros day_info headers title query mutation started asked Hdry Hinfo.
  destruct (day_info_fields day_name language date) as (Hd & Hl & Ht).
  fold day_info in Hd, Hl, Ht.
  pose proof (generate_programming_tip_trace w cfg day_info _ started
                (build_user_prompt_resolved day_name language date)) as Htr.
  unfold Scripts.main, io_bind, lift, print.
  rewrite Hinfo, Hd, Ht. cbn [app]. fold started.
  destruct (Scripts.generate_programming_tip w cfg day_info started) as [tr' [body | e]];
    cbn [fst snd] in *; subst tr'; [| reflexivity].
  rewrite Hdry. fold headers. fold title.
  change (started ++ [Completion (Scripts.completion_request cfg
                        (Scripts.user_prompt date day_name language))])%list with asked.
  pose proof (fetch_repository_id_trace headers asked) as Hf. fold query in Hf.
  destruct (Scripts.fetch_repository_id py_str w cfg headers asked) as [tr1 [repo_id | e]];
    cbn [fst snd] in *; subst tr1; [| reflexivity].
  pose proof (create_discussion_trace headers (asked ++ [Posted query])%list
                repo_id title body) as Hc.
  destruct (Scripts.create_discussion py_str w cfg headers repo_id title body _)
    as [tr2 [url | e]]; cbn [fst snd] in *; subst tr2; reflexivity.
Qed.

(** X1. A run that is not a dry run publishes when every step returns:
    given the body, the repository id and the URL the three calls return,
    [main] prints the announcement, asks for the completion, sends the
    repository query and then the mutation that carries that id, the title
    of the day and that body, prints the URL and returns. *)
Theorem main_publishes (day_name language body repo_id url : string) :
  let date := Py.strftime_Ymd (utc_now w) in
  let day_info : gmap string string :=
    {[ "day_name" := day_name; "language" := language; "date" := date ]} in
  let headers := Scripts.auth_headers cfg in
  let title := Scripts.discussion_title date day_name in
  let query :=
    Scripts.graphql_request headers Scripts.REPOSITORY_QUERY
      (Scripts.repository_variables cfg) in
  let mutation :=
    Scripts.graphql_request headers Scripts.DISCUSSION_MUTATION
      (Scripts.discussion_variables cfg repo_id title body) in
  let asked :=
    [Printed (Scripts.announcement day_name date);
     Completion (Scripts.completion_request cfg
                   (Scripts.user_prompt date day_name language))] in
  Scripts.DRY_RUN cfg = false ->
  Scripts.get_current_day_info w = Ok day_info ->
  snd (Scripts.generate_programming_tip w cfg day_info
         [Printed (Scripts.announcement day_name date)]) = Ok body ->
  snd (Scripts.fetch_repository_id py_str w cfg headers asked) = Ok repo_id ->
  snd (Scripts.create_discussion py_str w cfg headers repo_id title body
         (asked ++ [Posted query])%list) = Ok url ->
  Scripts.main py_str w cfg []
  = ((asked ++ [Posted query; Posted mutation;
                Printed ("Discussion created successfully: " +:+ url)])%list, Ok tt).
Proof.
  intros date day_info headers title query mutation asked Hdry Hinfo Hg Hf Hc.
  rewrite (main_publishing day_name language date Hdry Hinfo).
  fold day_info headers title query asked.
  rewrite Hg, Hf, Hc. reflexivity.
Qed.

(** X12. A step that raises ends the run there, with that exception: when
    the completion client raises, nothing is sent to the discussion
    service, dry run or not; when [fetch_repository_id] raises, the
    mutation is never sent; when [create_discussion] raises, no success
    line is printed. *)
Theorem main_stops_at_first_failure (day_name language : string) :
  let date := Py.strftime_Ymd (utc_now w) in
  let day_info : gmap string string :=
    {[ "day_name" := day_name; "language" := language; "date" := date ]} in
  let headers := Scripts.auth_headers cfg in
  let title := Scripts.discussion_title date day_name in
  let query :=
    Scripts.graphql_request headers Scripts.REPOSITORY_QUERY
      (Scripts.repository_variables cfg) in
  let mutation repo_id body :=
    Scripts.graphql_request headers Scripts.DISCUSSION_MUTATION
      (Scripts.discussion_variables cfg repo_id title body) in
  let started := [Printed (Scripts.announcement day_name date)] in
  let asked :=
    [Printed (Scripts.announcement day_name date);
     Completion (Scripts.completion_request cfg
                   (Scripts.user_prompt date day_name language))] in
  Scripts.get_current_day_info w = Ok day_info ->
  (forall e,
      snd (Scripts.generate_programming_tip w cfg day_info started) = Raise e ->
      Scripts.main py_str w cfg [] = (asked, Raise e))
  /\ (forall body e,
        Scripts.DRY_RUN cfg = false ->
        snd (Scripts.generate_programming_tip w cfg day_info started) = Ok body ->
        snd (Scripts.fetch_repository_id py_str w cfg headers asked) = Raise e ->
        Scripts.main py_str w cfg [] = ((asked ++ [Posted query])%list, Raise e))
  /\ (forall body repo_id e,
        Scripts.DRY_RUN cfg = false ->
        snd (Scripts.generate_programming_tip w cfg day_info started) = Ok body ->
        snd (Scripts.fetch_repository_id py_str w cfg headers asked) = Ok repo_id ->
        snd (Scripts.create_discussion py_str w cfg headers repo_id title body
               (asked ++ [Posted query])%list) = Raise e ->
        Scripts.main py_str w cfg []
        = ((asked ++ [Posted query; Posted (mutation repo_id body)])%list, Raise e)).
Proof.
  intros date day_info headers title query mutation started asked Hinfo.
  split; [| split].
  - intros e Hg. destruct (Scripts.DRY_RUN cfg) eqn:Hdry.
    + rewrite (main_dry_run py_str w cfg day_name language date Hdry Hinfo).
      fold day_info started. rewrite Hg. reflexivity.
    + rewrite (main_publishing day_name language date Hdry Hinfo).
      fold day_info started. rewrite Hg. reflexivity.
  - intros body e Hdry Hg Hf.
    rewrite (main_publishing day_name language date Hdry Hinfo).
    fold day_info headers started asked. rewrite Hg, Hf. reflexivity.
  - intros body repo_id e Hdry Hg Hf Hc.
    rewrite (main_publishing day_name language date Hdry Hinfo).
    fold day_info headers title query started asked. rewrite Hg, Hf, Hc. reflexivity.
Qed.

(** X13. When a run that is not a dry run returns, a discussion was
    created: the trace is the announcement, the completion request, the
    query, the mutation and the success line, in this order, and the body
    sent, the repository id used and the URL reported are not empty. *)
Theorem returned_run_published :
  Scripts.DRY_RUN cfg = false ->
  snd (Scripts.main py_str w cfg []) = Ok tt ->
  exists day_name language body repo_id url,
    let date := Py.strftime_Ymd (utc_now w) in
    let headers := Scripts.auth_headers cfg in
    let title := Scripts.discussion_title date day_name in
    body <> EmptyString /\ repo_id <> EmptyString /\ url <> EmptyString
    /\ fst (Scripts.main py_str w cfg [])
       = [Printed (Scripts.announcement day_name date);
          Completion (Scripts.completion_request cfg
                        (Scripts.user_prompt date day_name language));
          Posted (Scripts.graphql_request headers Scripts.REPOSITORY_QUERY
                    (Scripts.repository_variables cfg));
          Posted (Scripts.graphql_request headers Scripts.DISCUSSION_MUTATION
                    (Scripts.discussion_variables cfg repo_id title body));
          Printed ("Discussion created successfully: " +:+ url)].
Proof.
  intros Hdry Hok.
  destruct (scripts_resolves w) as (day_name & language & _ & Hinfo).
  rewrite (main_publishing day_name language _ Hdry Hinfo) in Hok |- *.
  destruct (snd (Scripts.generate_programming_tip w cfg _ _)) as [body | e] eqn:Hg;
    [| discriminate Hok].
  destruct (snd (Scripts.fetch_repository_id py_str w cfg _ _)) as [repo_id | e] eqn:Hf;
    [| discriminate Hok].
  destruct (snd (Scripts.create_discussion py_str w cfg _ _ _ _ _)) as [url | e] eqn:Hc;
    [| discriminate Hok].
  exists day_name, language, body, repo_id, url. cbn zeta.
  apply generate_programming_tip_ok_inv in Hg
    as (_ & _ & _ & _ & _ & _ & _ & _ & _ & _ & Hbody).
  apply fetch_repository_id_ok_inv in Hf as (Hid & _).
  apply create_discussion_ok_inv in Hc as (Hurl & _).
  repeat split; try assumption.
Qed.

End OrchestratorMore.

(* ===================================================================== *)
(** ** The schedule the prompts state, and the other variant             *)
(* ===================================================================== *)

Section Variants.

Lemma str_in_app_r (sub a b : string) :
  Py.str_in sub b = true -> Py.str_in sub (a +:+ b) = true.
Proof.
  intros H. induction a as [| c a IH]; [exact H |].
  change (String c a +:+ b) with (String c (a +:+ b)).
  cbn [Py.str_in]. rewrite IH. apply orb_true_r.
Qed.

(** The user prompt after its three leading lines, and the schedule that
    part states. *)
Lemma user_prompt_tail :
  exists tail : string -> string,
    (forall date day_name language,
        Scripts.user_prompt date day_name language
        = lines ["Create today's GitHub Discussion post for the Daily Programming Insight series."; ""; "Date: "]
          +:+ date +:+ Py.nl +:+ "Day: " +:+ day_name +:+ Py.nl
          +:+ "Scheduled Language: " +:+ language +:+ tail language)
    /\ forall language,
         Py.str_in (Text.schedule_line "Monday" "Python" EmptyString) (tail language) = true
         /\ Py.str_in (Text.schedule_line "Tuesday" "Java" EmptyString) (tail language) = true
         /\ Py.str_in (Text.schedule_line "Wednesday" "JavaScript" EmptyString) (tail language)
            = true
         /\ Py.str_in (Text.schedule_line "Thursday" "Go" EmptyString) (tail language) = true
         /\ Py.str_in "- Friday, Saturday, Sunday → Wildcard" (tail language) = true.
Proof.
  eexists. split.
  - intros date day_name language. reflexivity.
  - intros language. repeat split; vm_compute; reflexivity.
Qed.

Lemma workflows_prompt_schedule (day_name language alt_snippet : string) :
  let prompt := Workflows.prompt_text day_name language alt_snippet in
  Py.str_in (Text.schedule_line "Monday" "Python" "  ") prompt = true
  /\ Py.str_in (Text.schedule_line "Tuesday" "Java" "  ") prompt = true
  /\ Py.str_in (Text.schedule_line "Wednesday" "Go" "  ") prompt = true
  /\ Py.str_in (Text.schedule_line "Thursday" "JavaScript" "  ") prompt = true
  /\ Py.str_in "- Friday / Saturday / Sunday → Wildcard" prompt = true.
Proof. repeat split; vm_compute; reflexivity. Qed.

Lemma table_index (t : gmap Z string) (v0 v1 v2 v3 v4 v5 v6 : string) (i : Z) (v : string) :
  t = {[ 0 := v0; 1 := v1; 2 := v2; 3 := v3; 4 := v4; 5 := v5; 6 := v6 ]} ->
  t !! i = Some v ->
  i = 0 \/ i = 1 \/ i = 2 \/ i = 3 \/ i = 4 \/ i = 5 \/ i = 6.
Proof.
  intros Ht Hv.
  assert (0 <= i <= 6) by (eapply seven_entries; [exact Ht | eexists; exact Hv]). lia.
Qed.

Ltac table_row Hday Hlang :=
  vm_compute in Hday; vm_compute in Hlang;
  injection Hday as <-; injection Hlang as <-.

(** X14. Each variant's prompt states the schedule of its own tables:
    whatever it is rendered for, it holds a line "- day → language" for
    every row of the tables with a language of its own, and one line
    naming Friday, Saturday and Sunday as wildcard days, which are the
    rows the tables give to Wildcard. *)
Theorem prompts_state_their_schedule (i : Z) (day language : string) :
  (Scripts.DAY_NAMES !! i = Some day ->
   Scripts.LANGUAGE_SCHEDULE !! i = Some language ->
   forall date day_name scheduled,
     let prompt := Scripts.user_prompt date day_name scheduled in
     if String.eqb language "Wildcard"
     then Py.str_in day "Friday, Saturday, Sunday" = true
          /\ Py.str_in "- Friday, Saturday, Sunday → Wildcard" prompt = true
     else Py.str_in (Text.schedule_line day language EmptyString) prompt = true)
  /\ (Workflows.DAY_NAMES !! i = Some day ->
      Workflows.LANGUAGE_SCHEDULE !! i = Some language ->
      forall day_name scheduled alt_snippet,
        let prompt := Workflows.prompt_text day_name scheduled alt_snippet in
        if String.eqb language "Wildcard"
        then Py.str_in day "Friday / Saturday / Sunday" = true
             /\ Py.str_in "- Friday / Saturday / Sunday → Wildcard" prompt = true
        else Py.str_in (Text.schedule_line day language "  ") prompt = true).
Proof.
  split.
  - intros Hday Hlang date day_name scheduled prompt.
    destruct user_prompt_tail as (tail & Hprompt & Hlines).
    destruct (Hlines scheduled) as (Hmon & Htue & Hwed & Hthu & Hwild).
    assert (Hin : forall needle,
               Py.str_in needle (tail scheduled) = true -> Py.str_in needle prompt = true).
    { intros needle H. unfold prompt. rewrite Hprompt.
      do 8 apply str_in_app_r. exact H. }
    destruct (table_index _ _ _ _ _ _ _ _ i day eq_refl Hday)
      as [-> | [-> | [-> | [-> | [-> | [-> | ->]]]]]];
      table_row Hday Hlang;
      first [ split; [reflexivity | apply Hin, Hwild]
            | apply Hin; assumption ].
  - intros Hday Hlang day_name scheduled alt_snippet prompt.
    destruct (workflows_prompt_schedule day_name scheduled alt_snippet)
      as (Hmon & Htue & Hwed & Hthu & Hwild).
    destruct (table_index _ _ _ _ _ _ _ _ i day eq_refl Hday)
      as [-> | [-> | [-> | [-> | [-> | [-> | ->]]]]]];
      table_row Hday Hlang;
      first [ split; [reflexivity | exact Hwild] | assumption ].
Qed.

Lemma workflows_resolves (w : world) :
  exists day_name language,
    In (day_name, language) Text.WORKFLOWS_ROWS
    /\ Workflows.get_current_day_info w
       = Ok {[ "day_name" := day_name; "language" := language;
               "date" := Py.strftime_Ymd (utc_now w) ]}.
Proof.
  pose proof (weekday_range (utc_now w)) as Hr.
  unfold Workflows.get_current_day_info, Workflows.sunday_first.
  set (p := Py.weekday (utc_now w)) in *.
  assert (p = 0 \/ p = 1 \/ p = 2 \/ p = 3 \/ p = 4 \/ p = 5 \/ p = 6) as Hcases by lia.
  unfold Text.WORKFLOWS_ROWS.
  destruct Hcases as [-> | [-> | [-> | [-> | [-> | [-> | ->]]]]]];
    do 2 eexists; (split; [| reflexivity]); cbn [In]; tauto.
Qed.

Lemma workflows_pprompt_resolved (day_name language date : string) :
  Workflows.pprompt
    {[ "day_name" := day_name; "language" := language; "date" := date ]}
  = Ok (Workflows.prompt_text day_name language
          (if String.eqb language "Wildcard"
           then "Alt Snippet (Python/JavaScript): if wildcard" else EmptyString)).
Proof.
  destruct (day_info_fields day_name language date) as (Hd & Hl & _).
  unfold Workflows.pprompt. rewrite Hd, Hl. reflexivity.
Qed.

(** X15. The prompt of the workflows variant, at every instant: it is
    built without a [KeyError]; it tells the day and the language but
    never the date; its code fence is tagged with the language in lower
    case; and it asks for the alternative snippet exactly on the days
    whose language is Wildcard. *)
Theorem workflows_prompt_resolved (w : world) :
  exists day_name language prompt,
    Workflows.get_current_day_info w
    = Ok {[ "day_name" := day_name; "language" := language;
            "date" := Py.strftime_Ymd (utc_now w) ]}
    /\ Workflows.pprompt
         {[ "day_name" := day_name; "language" := language;
            "date" := Py.strftime_Ymd (utc_now w) ]} = Ok prompt
    /\ Text.occurrences (Py.strftime_Ymd (utc_now w)) prompt = 0%nat
    /\ Py.str_in ("Today is " +:+ day_name +:+ ", so use " +:+ language +:+ "." +:+ Py.nl)
         prompt = true
    /\ Py.str_in ("```" +:+ Py.lower language +:+ Py.nl) prompt = true
    /\ Py.str_in "Alt Snippet (Python/JavaScript): if wildcard" prompt
       = String.eqb language "Wildcard".
Proof.
  destruct (workflows_resolves w) as (day_name & language & Hin & Hinfo).
  eexists day_name, language, _.
  split; [exact Hinfo |]. split; [apply workflows_pprompt_resolved |].
  split.
  - pose proof (occurrences_shape_le (Py.strftime_Ymd (utc_now w))
                  (Workflows.prompt_text day_name language
                     (if String.eqb language "Wildcard"
                      then "Alt Snippet (Python/JavaScript): if wildcard"
                      else EmptyString))) as Hle.
    rewrite shape_date in Hle.
    assert (Hzero :
      Text.occurrences "0000-00-00"
        (Text.shape (Workflows.prompt_text day_name language
                       (if String.eqb language "Wildcard"
                        then "Alt Snippet (Python/JavaScript): if wildcard"
                        else EmptyString))) = 0%nat).
    { unfold Text.WORKFLOWS_ROWS in Hin. cbn [In] in Hin.
      repeat (destruct Hin as [[= <- <-] | Hin]; [vm_compute; reflexivity |]).
      contradiction. }
    lia.
  - unfold Text.WORKFLOWS_ROWS in Hin. cbn [In] in Hin.
    repeat (destruct Hin as [[= <- <-] | Hin]; [vm_compute; repeat split |]).
    contradiction.
Qed.

Section SameEnvironment.

Variable environ : gmap string string.

Lemma length_append (a b : string) :
  String.length (a +:+ b) = (String.length a + String.length b)%nat.
Proof.
  induction a as [| c a IH]; [reflexivity |].
  change (S (String.length (a +:+ b)) = S (String.length a + String.length b)).
  f_equal. exact IH.
Qed.

(** X16. The two variants on one environment.  When the scripts variant
    loads and the repository name has no "/", the workflows variant loads
    the same tokens, owner and name.  When the name is a slug, the
    workflows variant does not split it: it raises [KeyError] for
    [REPO_OWNER] when that is unset, and otherwise keeps the whole slug as
    the name, which is not the name the scripts variant took from it. *)
Theorem variants_on_one_environment (cfg : Scripts.config) (raw : string) :
  Scripts.load_config environ = Ok cfg ->
  environ !! "REPO_NAME" = Some raw ->
  (Py.str_in "/" raw = false ->
   exists cfg',
     Workflows.load_config environ = Ok cfg'
     /\ Workflows.GITHUB_TOKEN cfg' = Scripts.GITHUB_TOKEN cfg
     /\ Workflows.GROQ_API_KEY cfg' = Scripts.GROQ_API_KEY cfg
     /\ Workflows.REPO_OWNER cfg' = Scripts.REPO_OWNER cfg
     /\ Workflows.REPO_NAME cfg' = Scripts.REPO_NAME cfg)
  /\ (Py.str_in "/" raw = true ->
      (environ !! "REPO_OWNER" = None ->
       Workflows.load_config environ = Raise (KeyError (VStr "REPO_OWNER")))
      /\ (forall cfg',
            Workflows.load_config environ = Ok cfg' ->
            Workflows.REPO_NAME cfg' = raw
            /\ Workflows.REPO_NAME cfg' <> Scripts.REPO_NAME cfg)).
Proof.
  intros Hload Hraw. unfold Scripts.load_config in Hload.
  destruct (Scripts.require_env environ "GITHUB_TOKEN") as [token |] eqn:Ht;
    [| discriminate].
  destruct (Scripts.require_env environ "GROQ_API_KEY") as [key |] eqn:Hk;
    [| discriminate].
  destruct (Scripts.require_env environ "REPO_NAME") as [raw' |] eqn:Hr;
    [| discriminate]. cbn [bind] in Hload.
  destruct (Scripts.repo_identity (environ !! "REPO_OWNER") raw') as [[owner name] |] eqn:Hi;
    [| discriminate].
  destruct (Scripts.require_env environ "DISCUSSION_CATEGORY_ID") as [category |];
    [| discriminate].
  cbn [bind fst snd] in Hload. injection Hload as <-. cbn.
  apply require_env_ok_inv in Ht as [Ht _], Hk as [Hk _], Hr as [Hr _].
  assert (raw' = raw) as -> by congruence.
  unfold Workflows.load_config, Py.lookup_str. rewrite Ht, Hk, Hraw. cbn [bind].
  unfold Scripts.repo_identity in Hi. split.
  - intros Hno. rewrite Hno in Hi.
    destruct (environ !! "REPO_OWNER") as [o |]; cbn in Hi; [| discriminate].
    destruct (String.eqb o EmptyString); [discriminate |].
    injection Hi as <- <-. cbn [bind]. eexists. split; [reflexivity |].
    repeat split.
  - intros Hyes. rewrite Hyes in Hi. split.
    + intros ->. reflexivity.
    + intros cfg'. destruct (environ !! "REPO_OWNER") as [o |]; [| discriminate].
      cbn [bind]. intros [= <-]. cbn. split; [reflexivity |].
      destruct (str_in_char_split _ _ Hyes) as (before & after & -> & Hclean).
      unfold Py.split1 in Hi. rewrite cut_at_first in Hi by exact Hclean.
      injection Hi as <- <-. intros Heq.
      apply (f_equal String.length) in Heq.
      rewrite !length_append in Heq. cbn in Heq. lia.
Qed.

End SameEnvironment.

End Variants.

(* ===================================================================== *)
(** ** Further statements at the sample inputs                           *)
(* ===================================================================== *)

(** X6 at work: [DRY_RUN=TRUE] is a dry run. *)
Lemma dry_run_flag_spelling_witness :
  (Scripts.DRY_RUN Sample.cfg = true
   <-> exists v, Sample.slug_env !! "DRY_RUN" = Some v /\ Text.spells_true v)
  /\ (Sample.slug_env !! "DRY_RUN" = None -> Scripts.DRY_RUN Sample.cfg = false).
Proof.
  apply (dry_run_flag_spelling Sample.slug_env Sample.cfg). vm_compute. reflexivity.
Defined.

(** X7 at work: the padded answer comes back as a stripped body. *)
Lemma generated_body_is_stripped_witness :
  "Hello" <> EmptyString
  /\ Py.leading_space "Hello" = 0%nat
  /\ Py.trailing_space "Hello" = 0%nat
  /\ Py.strip "Hello" = "Hello".
Proof.
  apply (generated_body_is_stripped (Sample.world_of "  Hello " VNone) Sample.cfg
           Sample.day_info [] "Hello").
  vm_compute. reflexivity.
Defined.

(** X1 at work, on the end-to-end scenario: a Monday, a valid completion,
    the repository id [R_123] and the URL of the created discussion. *)
Lemma main_publishes_witness :
  let headers := Scripts.auth_headers Sample.publish_cfg in
  Scripts.main Sample.render Sample.publishing_world Sample.publish_cfg []
  = ([Printed "Generating Daily Programming Insight for Monday (2024-01-01)";
      Completion (Scripts.completion_request Sample.publish_cfg
                    (Scripts.user_prompt "2024-01-01" "Monday" "Python"));
      Posted (Scripts.graphql_request headers Scripts.REPOSITORY_QUERY
                (Scripts.repository_variables Sample.publish_cfg));
      Posted (Scripts.graphql_request headers Scripts.DISCUSSION_MUTATION
                (Scripts.discussion_variables Sample.publish_cfg "R_123"
                   (Scripts.discussion_title "2024-01-01" "Monday") "# Tip of the day"));
      Printed "Discussion created successfully: https://github.com/org/repo/discussions/42"],
     Ok tt).
Proof.
  apply (main_publishes Sample.render Sample.publishing_world Sample.publish_cfg
           "Monday" "Python" "# Tip of the day" "R_123"
           "https://github.com/org/repo/discussions/42");
    vm_compute; reflexivity.
Defined.

(** X12 at work: a blank completion ends the run before anything is sent. *)
Lemma main_stops_at_first_failure_witness :
  Scripts.main Sample.render (Sample.world_of "   " VNone) Sample.cfg []
  = ([Printed "Generating Daily Programming Insight for Monday (2024-01-01)";
      Completion (Scripts.completion_request Sample.cfg
                    (Scripts.user_prompt "2024-01-01" "Monday" "Python"))],
     Raise (RuntimeError "Groq completion content was blank after stripping whitespace")).
Proof.
  apply (proj1 (main_stops_at_first_failure Sample.render (Sample.world_of "   " VNone)
                  Sample.cfg "Monday" "Python" ltac:(vm_compute; reflexivity))).
  vm_compute. reflexivity.
Defined.

(** X13 at work on the end-to-end scenario. *)
Lemma returned_run_published_witness :
  exists day_name language body repo_id url,
    let w := Sample.publishing_world in
    let cfg := Sample.publish_cfg in
    let date := Py.strftime_Ymd (utc_now w) in
    let headers := Scripts.auth_headers cfg in
    let title := Scripts.discussion_title date day_name in
    body <> EmptyString /\ repo_id <> EmptyString /\ url <> EmptyString
    /\ fst (Scripts.main Sample.render w cfg [])
       = [Printed (Scripts.announcement day_name date);
          Completion (Scripts.completion_request cfg
                        (Scripts.user_prompt date day_name language));
          Posted (Scripts.graphql_request headers Scripts.REPOSITORY_QUERY
                    (Scripts.repository_variables cfg));
          Posted (Scripts.graphql_request headers Scripts.DISCUSSION_MUTATION
                    (Scripts.discussion_variables cfg repo_id title body));
          Printed ("Discussion created successfully: " +:+ url)].
Proof.
  apply (returned_run_published Sample.render Sample.publishing_world Sample.publish_cfg);
    vm_compute; reflexivity.
Defined.

(** X16 at work: a bare name beside an owner loads alike in both. *)
Lemma variants_on_one_environment_witness :
  exists cfg',
    Workflows.load_config Sample.bare_env = Ok cfg'
    /\ Workflows.GITHUB_TOKEN cfg' = "ghp_token"
    /\ Workflows.GROQ_API_KEY cfg' = "gsk_key"
    /\ Workflows.REPO_OWNER cfg' = "acme"
    /\ Workflows.REPO_NAME cfg' = "widgets".
Proof.
  apply (proj1 (variants_on_one_environment Sample.bare_env Sample.cfg "widgets"
                  ltac:(vm_compute; reflexivity) eq_refl)).
  reflexivity.
Defined.
